(** * JWT decoder and verifier: a shallow embedding

    The development follows [src/components/jwt/jwt-decoder.tsx] (the
    [decodeJwt] callback) and [src/components/jwt/jwt-tool.tsx]
    ([fetchWithCorsProxyFallback] and the three [verifyWith...] handlers of
    [JwtVerifier]).

    Conventions.
    - A JavaScript string is a [string]: a sequence of code units below 256.
    - A value that [JSON.parse] or [response.json()] can return is a
      [JSValue]; a number is kept as the text [Number::toString] prints for
      it, so that no floating point arithmetic is needed.
    - [async] functions are run sequentially: every [await] is a bind of the
      monad [M], whose state holds the outside world, the list of calls made
      to [fetch] and to the jose library, and the React state of the
      component.
    - The browser and the jose library are not part of the repository: they
      are the fields of a [Platform] record, over which every theorem is
      quantified. *)

From Stdlib Require Import String Ascii List NArith Arith Bool Lia.
Import ListNotations.
Local Open Scope string_scope.
Local Open Scope list_scope.

(** ** JavaScript strings *)

Definition chr (n : nat) : ascii := ascii_of_nat n.
Definition code (c : ascii) : nat := nat_of_ascii c.

(** The double quote, which string literals of this file never contain. *)
Definition dq : string := String (chr 34) EmptyString.
Definition quoted (s : string) : string := dq ++ s ++ dq.

Definition chars (s : string) : list ascii := list_ascii_of_string s.
Definition of_chars (l : list ascii) : string := string_of_list_ascii l.

(** [s.split(sep)] for a separator of one character: the result is never
    empty, and [n] separators give [n + 1] parts. *)
Fixpoint js_split (sep : ascii) (s : string) : list string :=
  match s with
  | EmptyString => [EmptyString]
  | String a s' =>
      if Ascii.eqb a sep then EmptyString :: js_split sep s'
      else match js_split sep s' with
           | [] => [String a EmptyString]
           | p :: ps => String a p :: ps
           end
  end.

Fixpoint count_char (c : ascii) (s : string) : nat :=
  match s with
  | EmptyString => 0
  | String a s' => (if Ascii.eqb a c then 1 else 0) + count_char c s'
  end.

(** [s.endsWith(c)] for one character. *)
Fixpoint endsWith (s : string) (c : ascii) : bool :=
  match s with
  | EmptyString => false
  | String a EmptyString => Ascii.eqb a c
  | String _ s' => endsWith s' c
  end.

(** White space as [String.prototype.trim] sees it, among the code units
    below 256: TAB, LF, VT, FF, CR, SPACE and NBSP. *)
Definition is_js_whitespace (c : ascii) : bool :=
  let n := code c in
  (((9 <=? n) && (n <=? 13)) || (n =? 32) || (n =? 160))%nat.

Fixpoint trimStart (l : list ascii) : list ascii :=
  match l with
  | [] => []
  | a :: l' => if is_js_whitespace a then trimStart l' else l
  end.

Definition trim (s : string) : string :=
  of_chars (rev (trimStart (rev (trimStart (chars s))))).

Definition is_empty (s : string) : bool :=
  match s with EmptyString => true | _ => false end.

(** UTF-8 bytes of a string, as [new TextEncoder().encode(s)] gives them:
    one byte below 128, two bytes from 128 to 255. *)
Definition utf8_char (c : ascii) : list N :=
  let n := N_of_ascii c in
  if (n <? 128)%N then [n]
  else [N.lor 192 (N.shiftr n 6); N.lor 128 (N.land n 63)].

Definition utf8_encode (s : string) : list N := flat_map utf8_char (chars s).

(** [encodeURIComponent]: letters, digits and [- _ . ! ~ * ' ( )] are kept,
    every other character becomes the percent-escapes of its UTF-8 bytes. *)
Definition is_alnum (c : ascii) : bool :=
  let n := code c in
  (((65 <=? n) && (n <=? 90)) || ((97 <=? n) && (n <=? 122))
   || ((48 <=? n) && (n <=? 57)))%nat.

Definition is_uri_unreserved (c : ascii) : bool :=
  is_alnum c || existsb (Ascii.eqb c) (chars "-_.!~*'()").

Definition hex_digit (n : N) : ascii :=
  if (n <? 10)%N then ascii_of_N (48 + n) else ascii_of_N (55 + n).

Definition percent_escape (b : N) : list ascii :=
  ["%"%char; hex_digit (N.shiftr b 4); hex_digit (N.land b 15)].

Definition encodeURIComponent (s : string) : string :=
  of_chars (flat_map (fun c => if is_uri_unreserved c then [c]
                               else flat_map percent_escape (utf8_char c))
                     (chars s)).

(** ** Errors *)

(** Faults that the JavaScript engine raises by itself.  Their message text
    differs from one engine to the other and comes from the platform. *)
Inductive Fault : Type :=
| InvalidCharacterError            (* atob on text that is not base64 *)
| ReadOfNullish (prop : string)    (* x.prop with x null or undefined *)
| NotCallable (prop : string).     (* x.prop(...) with x.prop no function *)

(** What a [throw] carries: an instance of [Error] with its message, or any
    other value. *)
Inductive Thrown : Type :=
| ErrorObj (message : string)
| NonError.

(** ** atob

    [atob] is the browser's forgiving-base64 decoder (WHATWG Infra): ASCII
    white space is dropped, one or two trailing [=] are dropped when the
    length is a multiple of four, a length of 1 modulo 4 fails, and so does
    any character outside [A-Z a-z 0-9 + /]. *)

Definition is_ascii_whitespace (c : ascii) : bool :=
  let n := code c in
  ((n =? 9) || (n =? 10) || (n =? 12) || (n =? 13) || (n =? 32))%nat.

Definition base64_value (c : ascii) : option N :=
  let n := N_of_ascii c in
  if ((65 <=? n) && (n <=? 90))%N then Some (n - 65)%N
  else if ((97 <=? n) && (n <=? 122))%N then Some (n - 71)%N
  else if ((48 <=? n) && (n <=? 57))%N then Some (n + 4)%N
  else if (n =? 43)%N then Some 62%N
  else if (n =? 47)%N then Some 63%N
  else None.

(** Remove a trailing [=], if there is one. *)
Definition drop_last_eq (d : list ascii) : list ascii :=
  match rev d with
  | x :: r => if Ascii.eqb x "=" then rev r else d
  | [] => d
  end.

Definition strip_padding (d : list ascii) : list ascii :=
  if (length d mod 4 =? 0)%nat then drop_last_eq (drop_last_eq d) else d.

Fixpoint base64_values (d : list ascii) : option (list N) :=
  match d with
  | [] => Some []
  | c :: d' =>
      match base64_value c, base64_values d' with
      | Some v, Some vs => Some (v :: vs)
      | _, _ => None
      end
  end.

Definition byte_at (buffer : N) (shift : N) : ascii :=
  ascii_of_N (N.land (N.shiftr buffer shift) 255).

Fixpoint base64_bytes (vs : list N) : list ascii :=
  match vs with
  | a :: b :: c :: d :: rest =>
      let buffer :=
        N.lor (N.lor (N.shiftl a 18) (N.shiftl b 12)) (N.lor (N.shiftl c 6) d) in
      byte_at buffer 16 :: byte_at buffer 8 :: byte_at buffer 0
        :: base64_bytes rest
  | [a; b; c] =>
      let buffer :=
        N.shiftr (N.lor (N.lor (N.shiftl a 12) (N.shiftl b 6)) c) 2 in
      [byte_at buffer 8; byte_at buffer 0]
  | [a; b] =>
      let buffer := N.shiftr (N.lor (N.shiftl a 6) b) 4 in
      [byte_at buffer 0]
  | _ => []
  end.

Definition forgiving_base64_decode (data : string) : option string :=
  let d := strip_padding (filter (fun c => negb (is_ascii_whitespace c)) (chars data)) in
  if (length d mod 4 =? 1)%nat then None
  else match base64_values d with
       | Some vs => Some (of_chars (base64_bytes vs))
       | None => None
       end.

Definition atob (data : string) : Fault + string :=
  match forgiving_base64_decode data with
  | Some s => inr s
  | None => inl InvalidCharacterError
  end.

(** The Base64URL alphabet of RFC 4648, section 5, which a JWT segment is
    written in. *)
Definition is_base64url_char (c : ascii) : bool :=
  is_alnum c || Ascii.eqb c "-" || Ascii.eqb c "_".

Definition is_base64url_text (s : string) : bool :=
  forallb is_base64url_char (chars s) && negb (length (chars s) mod 4 =? 1)%nat.

(** ** JavaScript values *)

(** The values [JSON.parse] returns, and [undefined] for a property that is
    not there.  [JNumber r] is the number that prints as [r]. *)
#[local] Set Warnings "-register-all".

Inductive JSValue : Type :=
| JUndefined
| JNull
| JBool (b : bool)
| JNumber (repr : string)
| JString (s : string)
| JArray (items : list JSValue)
| JObject (props : list (string * JSValue)).

(** [!!v] *)
Definition truthy (v : JSValue) : bool :=
  match v with
  | JUndefined | JNull => false
  | JBool b => b
  | JNumber r => negb (String.eqb r "0" || String.eqb r "NaN")
  | JString s => negb (is_empty s)
  | JArray _ | JObject _ => true
  end.

(** [a || b] *)
Definition js_or (a b : JSValue) : JSValue := if truthy a then a else b.

(** [a === b] for two values that come from two different parses: two
    arrays or two objects are then never the same reference. *)
Definition strict_eq (a b : JSValue) : bool :=
  match a, b with
  | JUndefined, JUndefined => true
  | JNull, JNull => true
  | JBool x, JBool y => Bool.eqb x y
  | JNumber x, JNumber y => String.eqb x y && negb (String.eqb x "NaN")
  | JString x, JString y => String.eqb x y
  | _, _ => false
  end.

(** String conversion, as a template literal, [fetch] and
    [encodeURIComponent] apply it to their argument. *)
Fixpoint to_string (v : JSValue) : string :=
  match v with
  | JUndefined => "undefined"
  | JNull => "null"
  | JBool true => "true"
  | JBool false => "false"
  | JNumber r => r
  | JString s => s
  | JArray items =>
      (fix join (l : list JSValue) : string :=
         match l with
         | [] => ""
         | x :: l' =>
             ((match x with JUndefined | JNull => "" | _ => to_string x end)
              ++ (match l' with [] => "" | _ :: _ => "," ++ join l' end))%string
         end) items
  | JObject _ => "[object Object]"
  end.

Fixpoint lookup (name : string) (props : list (string * JSValue)) : option JSValue :=
  match props with
  | [] => None
  | (k, v) :: rest => if String.eqb k name then Some v else lookup name rest
  end.

(** [v.name], for a name that no prototype defines ([alg], [kid],
    [jwks_uri], [issuer]). *)
Definition get_prop (v : JSValue) (name : string) : Fault + JSValue :=
  match v with
  | JUndefined | JNull => inl (ReadOfNullish name)
  | JObject props =>
      match lookup name props with
      | Some x => inr x
      | None => inr JUndefined
      end
  | _ => inr JUndefined
  end.

(** [keys.find((key) => key.kid === kid)] on an array: the first element
    whose [kid] is [kid], [undefined] when there is none; reading [kid] on a
    [null] element throws. *)
Fixpoint array_find_kid (keys : list JSValue) (kid : JSValue) : Fault + JSValue :=
  match keys with
  | [] => inr JUndefined
  | key :: rest =>
      match get_prop key "kid" with
      | inl f => inl f
      | inr k => if strict_eq k kid then inr key else array_find_kid rest kid
      end
  end.

(** [jwks.keys.find(...)]: [jwks.keys] has to be an array.  On an array
    [jwks], [jwks.keys] is the built-in method, which has no [find]. *)
Definition jwks_keys_find (jwks kid : JSValue) : Fault + JSValue :=
  match jwks with
  | JUndefined | JNull => inl (ReadOfNullish "keys")
  | JObject props =>
      match lookup "keys" props with
      | Some (JArray keys) => array_find_kid keys kid
      | Some JNull | Some JUndefined | None => inl (ReadOfNullish "find")
      | Some _ => inl (NotCallable "find")
      end
  | JArray _ => inl (NotCallable "find")
  | _ => inl (ReadOfNullish "find")
  end.

(** ** The component's data *)

(** The [details] of a successful verification. *)
Record Details : Type := mkDetails {
  payload : JSValue;
  protectedHeader : JSValue
}.

(** The state variable [verificationResult]. *)
Record VerificationResult : Type := mkResult {
  isValid : bool;
  message : string;
  details : option Details
}.

Inductive Notice : Type :=
| ConsoleError (label : string)
| ToastSuccess (text : string)
| ToastError (text : string).

(** The React state of [JwtVerifier] that the handlers write, and what they
    print. *)
Record UI : Type := mkUI {
  verificationResult : option VerificationResult;
  isVerifying : bool;
  notices : list Notice
}.

Inductive HmacAlgorithm : Type := HS256 | HS384 | HS512.

Definition hmac_name (a : HmacAlgorithm) : string :=
  match a with HS256 => "HS256" | HS384 => "HS384" | HS512 => "HS512" end.

(** The values of the three forms. *)
Record AsymmetricKeyFormValues : Type := mkAsymmetric {
  asym_token : string;
  asym_publicKey : string;
  asym_algorithm : option string
}.

Record SymmetricKeyFormValues : Type := mkSymmetric {
  sym_token : string;
  sym_secretKey : string;
  sym_algorithm : HmacAlgorithm
}.

Record OpenIdFormValues : Type := mkOpenId {
  oidc_token : string;
  oidc_issuerUrl : string;
  oidc_useCorsProxy : bool
}.

(** A [Response] of [fetch]: [json] is what [response.json()] resolves or
    rejects with. *)
Record Response : Type := mkResponse {
  ok : bool;
  statusText : string;
  json : Thrown + JSValue
}.

(** The options object given to [jose.jwtVerify]; a field is [None] when
    the source does not set it. *)
Record VerifyOptions : Type := mkOptions {
  algorithms : option (list JSValue);
  issuer : option JSValue
}.

(** What [jose.jwtVerify] resolves with. *)
Record JWTVerifyResult : Type := mkVerified {
  jwt_payload : JSValue;
  jwt_protectedHeader : JSValue
}.

(** ** jwt-decoder.tsx: the three-part check of decodeJwt *)

Definition invalid_format : Thrown :=
  ErrorObj "Invalid JWT format. Expected three parts separated by dots.".

(** [const parts = jwtToken.split("."); if (parts.length !== 3) throw ...] *)
Definition decodeJwt_parts (jwtToken : string) : Thrown + list string :=
  let parts := js_split "." jwtToken in
  if negb (length parts =? 3)%nat then inl invalid_format else inr parts.

(** [error instanceof Error ? error.message : fallback] *)
Definition message_or (error : Thrown) (fallback : string) : string :=
  match error with
  | ErrorObj m => m
  | NonError => fallback
  end.

(** The state variable [decodedJwt] once a token is decoded. *)
Record DecodedJWT : Type := mkDecoded {
  dec_header : JSValue;
  dec_payload : JSValue;
  dec_signature : string
}.

(** What one run of [decodeJwt] does. *)
Inductive DecodeOutcome : Type :=
| NothingEntered                 (* toast "Please enter a JWT token" *)
| Decoded (d : DecodedJWT)       (* setDecodedJwt, onJwtChange, toast *)
| DecodeError (text : string).   (* console.error, toast.error(text) *)

Definition ebind {E A B : Type} (r : E + A) (k : A -> E + B) : E + B :=
  match r with
  | inl e => inl e
  | inr a => k a
  end.

Notation "x <-? r ;; k" := (ebind r (fun x => k))
  (at level 61, r at next level, right associativity).

Section Model.

(** The outside world (the network above all) and the key objects of the
    jose library. *)
Variables World KeyLike : Type.

(** The second argument of [jose.jwtVerify]. *)
Inductive KeyInput : Type :=
| PublicKey (k : KeyLike)            (* from jose.importSPKI *)
| SecretBytes (bytes : list N)       (* a Uint8Array *)
| RemoteJWKSet (href : string).      (* from jose.createRemoteJWKSet *)

(** The calls a handler makes to the network and to the jose library. *)
Inductive Call : Type :=
| CallFetch (url : string)
| CallImportSPKI (pem : string) (alg : JSValue)
| CallJwtVerify (token : string) (key : KeyInput) (options : VerifyOptions).

(** What the handlers use and the repository does not define. *)
Record Platform : Type := mkPlatform {
  platform_fetch : string -> World -> (Thrown + Response) * World;
  platform_JSON_parse : string -> Thrown + JSValue;
  platform_new_URL : string -> Thrown + string;
  platform_importSPKI : string -> JSValue -> World -> (Thrown + KeyLike) * World;
  platform_jwtVerify :
    string -> KeyInput -> VerifyOptions -> World -> (Thrown + JWTVerifyResult) * World;
  engine_message : Fault -> string
}.

Variable P : Platform.

Definition fault (f : Fault) : Thrown := ErrorObj (engine_message P f).

Definition engine {A : Type} (r : Fault + A) : Thrown + A :=
  match r with
  | inl f => inl (fault f)
  | inr a => inr a
  end.

(** [JSON.parse(atob(segment))] *)
Definition parse_segment (segment : string) : Thrown + JSValue :=
  text <-? engine (atob segment) ;;
  platform_JSON_parse P text.

(** The [try] block of [decodeJwt]. *)
Definition decodeJwt_try (jwtToken : string) : Thrown + DecodedJWT :=
  parts <-? decodeJwt_parts jwtToken ;;
  header <-? parse_segment (nth 0 parts "") ;;
  payload <-? parse_segment (nth 1 parts "") ;;
  let signature := nth 2 parts "" in
  inr (mkDecoded header payload signature).

Definition decodeJwt (jwtToken : string) : DecodeOutcome :=
  if is_empty (trim jwtToken) then NothingEntered
  else match decodeJwt_try jwtToken with
       | inr d => Decoded d
       | inl error => DecodeError (message_or error "Failed to decode JWT")
       end.

(** *** The monad of the handlers *)

Record St : Type := mkSt {
  world : World;
  calls : list Call;
  ui : UI
}.

Definition M (A : Type) : Type := St -> (Thrown + A) * St.

Definition ret {A : Type} (a : A) : M A := fun s => (inr a, s).

Definition throw {A : Type} (e : Thrown) : M A := fun s => (inl e, s).

Definition bind {A B : Type} (m : M A) (k : A -> M B) : M B :=
  fun s =>
    match m s with
    | (inl e, s') => (inl e, s')
    | (inr a, s') => k a s'
    end.

Definition lift {A : Type} (r : Thrown + A) : M A := fun s => (r, s).

(** [try { m } catch (error) { h error }] *)
Definition try_catch {A : Type} (m : M A) (h : Thrown -> M A) : M A :=
  fun s =>
    match m s with
    | (inl e, s') => h e s'
    | (inr a, s') => (inr a, s')
    end.

(** [try { m } finally { f }] *)
Definition try_finally {A : Type} (m : M A) (f : M unit) : M A :=
  fun s =>
    let (r, s') := m s in
    match f s' with
    | (inl e, s'') => (inl e, s'')
    | (inr _, s'') => (r, s'')
    end.

Notation "x <- m ;; k" := (bind m (fun x => k))
  (at level 61, m at next level, right associativity).
Notation "m ;; k" := (bind m (fun _ => k))
  (at level 61, right associativity).

(** [await fetch(url)] *)
Definition fetch (url : string) : M Response :=
  fun s =>
    let (r, w) := platform_fetch P url (world s) in
    (r, mkSt w (calls s ++ [CallFetch url]) (ui s)).

(** [await jose.importSPKI(pem, alg)] *)
Definition importSPKI (pem : string) (alg : JSValue) : M KeyLike :=
  fun s =>
    let (r, w) := platform_importSPKI P pem alg (world s) in
    (r, mkSt w (calls s ++ [CallImportSPKI pem alg]) (ui s)).

(** [await jose.jwtVerify(token, key, options)] *)
Definition jwtVerify (token : string) (key : KeyInput) (options : VerifyOptions)
  : M JWTVerifyResult :=
  fun s =>
    let (r, w) := platform_jwtVerify P token key options (world s) in
    (r, mkSt w (calls s ++ [CallJwtVerify token key options]) (ui s)).

Definition update_ui (f : UI -> UI) : M unit :=
  fun s => (inr tt, mkSt (world s) (calls s) (f (ui s))).

Definition setIsVerifying (b : bool) : M unit :=
  update_ui (fun u => mkUI (verificationResult u) b (notices u)).

Definition setVerificationResult (r : option VerificationResult) : M unit :=
  update_ui (fun u => mkUI r (isVerifying u) (notices u)).

Definition notify (n : Notice) : M unit :=
  update_ui (fun u => mkUI (verificationResult u) (isVerifying u) (notices u ++ [n])).

(** *** jwt-tool.tsx: fetchWithCorsProxyFallback *)

Definition proxyUrl (url : string) : string :=
  "https://corsproxy.io/?" ++ encodeURIComponent url.

Definition fetchWithCorsProxyFallback (url : string) (useCorsProxy : bool)
  : M Response :=
  try_catch
    (direct <- (if negb useCorsProxy then
                  response <- fetch url ;;
                  ret (if ok response then Some response else None)
                else ret None) ;;
     match direct with
     | Some response => ret response
     | None =>
         proxyResponse <- fetch (proxyUrl url) ;;
         if negb (ok proxyResponse) then
           throw (ErrorObj ("Failed to fetch from " ++ url
                            ++ " (with CORS proxy): " ++ statusText proxyResponse))
         else ret proxyResponse
     end)
    (fun error =>
       if useCorsProxy then throw error
       else
         proxyResponse <- fetch (proxyUrl url) ;;
         if negb (ok proxyResponse) then
           throw (ErrorObj ("Failed to fetch from " ++ url
                            ++ " (with CORS proxy fallback): "
                            ++ statusText proxyResponse))
         else ret proxyResponse).

(** *** jwt-tool.tsx: the three handlers of JwtVerifier *)

Definition optional_string (o : option string) : JSValue :=
  match o with
  | Some s => JString s
  | None => JUndefined
  end.

(** [algorithm || tokenHeader.alg || "RS256"]: the header is read only when
    the form gives no algorithm. *)
Definition asymmetric_alg (algorithm : option string) (tokenHeader : JSValue)
  : Thrown + JSValue :=
  if truthy (optional_string algorithm) then inr (optional_string algorithm)
  else
    header_alg <-? engine (get_prop tokenHeader "alg") ;;
    inr (js_or header_alg (JString "RS256")).

Definition succeed (text : string) (result : JWTVerifyResult) : M unit :=
  setVerificationResult
    (Some (mkResult true text
             (Some (mkDetails (jwt_payload result) (jwt_protectedHeader result))))).

Definition fail_with (label fallback : string) (error : Thrown) : M unit :=
  notify (ConsoleError label) ;;
  setVerificationResult (Some (mkResult false (message_or error fallback) None)) ;;
  notify (ToastError "JWT verification failed").

Definition verifyWithAsymmetricKey_try (values : AsymmetricKeyFormValues) : M unit :=
  let token := asym_token values in
  let publicKey := asym_publicKey values in
  let algorithm := asym_algorithm values in
  tokenHeader <- lift (parse_segment (hd "" (js_split "." token))) ;;
  alg <- lift (asymmetric_alg algorithm tokenHeader) ;;
  publicKeyObj <- importSPKI publicKey alg ;;
  result <- jwtVerify token (PublicKey publicKeyObj) (mkOptions (Some [alg]) None) ;;
  succeed "Token successfully verified with asymmetric key" result ;;
  notify (ToastSuccess "JWT verified successfully").

Definition verifyWithAsymmetricKey (values : AsymmetricKeyFormValues) : M unit :=
  setIsVerifying true ;;
  setVerificationResult None ;;
  try_finally
    (try_catch (verifyWithAsymmetricKey_try values)
               (fail_with "Verification error:" "Verification failed"))
    (setIsVerifying false).

Definition verifyWithSymmetricKey_try (values : SymmetricKeyFormValues) : M unit :=
  let token := sym_token values in
  let secretKey := sym_secretKey values in
  let algorithm := sym_algorithm values in
  let secretKeyUint8 := utf8_encode secretKey in
  result <- jwtVerify token (SecretBytes secretKeyUint8)
              (mkOptions (Some [JString (hmac_name algorithm)]) None) ;;
  succeed "Token successfully verified with symmetric key" result ;;
  notify (ToastSuccess "JWT verified successfully").

Definition verifyWithSymmetricKey (values : SymmetricKeyFormValues) : M unit :=
  setIsVerifying true ;;
  setVerificationResult None ;;
  try_finally
    (try_catch (verifyWithSymmetricKey_try values)
               (fail_with "Verification error:" "Verification failed"))
    (setIsVerifying false).

Definition openIdConfigUrl (issuerUrl : string) : string :=
  if endsWith issuerUrl "/" then issuerUrl ++ ".well-known/openid-configuration"
  else issuerUrl ++ "/.well-known/openid-configuration".

Definition missing_jwks_uri : Thrown :=
  ErrorObj "JWKS URI not found in OpenID configuration".

Definition missing_kid : Thrown :=
  ErrorObj "Token header does not contain a key ID (kid)".

Definition no_matching_key (kid : JSValue) : Thrown :=
  ErrorObj ("No matching key found for kid: " ++ to_string kid).

(** From [const tokenParts = token.split(".")] to the check of
    [matchingKey]. *)
Definition select_key (token : string) (jwks : JSValue) : Thrown + JSValue :=
  let tokenParts := js_split "." token in
  tokenHeader <-? parse_segment (hd "" tokenParts) ;;
  kid <-? engine (get_prop tokenHeader "kid") ;;
  if negb (truthy kid) then inl missing_kid
  else
    matchingKey <-? engine (jwks_keys_find jwks kid) ;;
    if negb (truthy matchingKey) then inl (no_matching_key kid)
    else inr matchingKey.

Definition verifyWithOpenId_try (values : OpenIdFormValues) : M unit :=
  let token := oidc_token values in
  let issuerUrl := oidc_issuerUrl values in
  let useCorsProxy := oidc_useCorsProxy values in
  configResponse <- fetchWithCorsProxyFallback (openIdConfigUrl issuerUrl) useCorsProxy ;;
  config <- lift (json configResponse) ;;
  jwksUri <- lift (engine (get_prop config "jwks_uri")) ;;
  if negb (truthy jwksUri) then throw missing_jwks_uri
  else
    jwksResponse <- fetchWithCorsProxyFallback (to_string jwksUri) useCorsProxy ;;
    jwks <- lift (json jwksResponse) ;;
    _ <- lift (select_key token jwks) ;;
    let jwksInstanceUrl :=
      if useCorsProxy then proxyUrl (to_string jwksUri) else to_string jwksUri in
    href <- lift (platform_new_URL P jwksInstanceUrl) ;;
    let jwksInstance := RemoteJWKSet href in
    config_issuer <- lift (engine (get_prop config "issuer")) ;;
    result <- jwtVerify token jwksInstance (mkOptions None (Some config_issuer)) ;;
    succeed "Token successfully verified with OpenID provider" result ;;
    notify (ToastSuccess "JWT verified successfully with OpenID provider").

Definition verifyWithOpenId (values : OpenIdFormValues) : M unit :=
  setIsVerifying true ;;
  setVerificationResult None ;;
  try_finally
    (try_catch (verifyWithOpenId_try values)
               (fail_with "OpenID verification error:" "OpenID verification failed"))
    (setIsVerifying false).

(** The frame that the three handlers share: the two setters, then the
    [try] block with its [catch] and [finally]. *)
Definition guarded (label fallback : string) (body : M unit) : M unit :=
  setIsVerifying true ;;
  setVerificationResult None ;;
  try_finally (try_catch body (fail_with label fallback)) (setIsVerifying false).

(** The state in which the [try] block of a handler starts. *)
Definition started (s : St) : St :=
  mkSt (world s) (calls s) (mkUI None true (notices (ui s))).

(** The state a handler starts from: nothing called yet, no result shown. *)
Definition initial (w : World) : St :=
  mkSt w [] (mkUI None false []).

(** The result shown once the handler has run. *)
Definition shown (run : (Thrown + unit) * St) : option VerificationResult :=
  verificationResult (ui (snd run)).

Definition is_fetch (c : Call) : bool :=
  match c with CallFetch _ => true | _ => false end.

Definition fetches (l : list Call) : list Call := filter is_fetch l.

End Model.

Arguments PublicKey {KeyLike} k.
Arguments SecretBytes {KeyLike} bytes.
Arguments RemoteJWKSet {KeyLike} href.
Arguments CallFetch {KeyLike} url.
Arguments CallImportSPKI {KeyLike} pem alg.
Arguments CallJwtVerify {KeyLike} token key options.
Arguments mkSt {World KeyLike} world calls ui.
Arguments world {World KeyLike} s.
Arguments calls {World KeyLike} s.
Arguments ui {World KeyLike} s.
Arguments initial {World KeyLike} w.
Arguments started {World KeyLike} s.
Arguments guarded {World KeyLike} label fallback body s.
Arguments shown {World KeyLike} run.
Arguments is_fetch {KeyLike} c.
Arguments fetches {KeyLike} l.
Arguments engine_message {World KeyLike} p f.
Arguments platform_fetch {World KeyLike} p url w.
Arguments platform_JSON_parse {World KeyLike} p text.
Arguments platform_new_URL {World KeyLike} p url.
Arguments platform_importSPKI {World KeyLike} p pem alg w.
Arguments platform_jwtVerify {World KeyLike} p token key options w.
Arguments fault {World KeyLike} P f.
Arguments engine {World KeyLike} P {A} r.
Arguments parse_segment {World KeyLike} P segment.
Arguments decodeJwt_try {World KeyLike} P jwtToken.
Arguments decodeJwt {World KeyLike} P jwtToken.
Arguments fetch {World KeyLike} P url s.
Arguments importSPKI {World KeyLike} P pem alg s.
Arguments jwtVerify {World KeyLike} P token key options s.
Arguments fetchWithCorsProxyFallback {World KeyLike} P url useCorsProxy s.
Arguments asymmetric_alg {World KeyLike} P algorithm tokenHeader.
Arguments select_key {World KeyLike} P token jwks.
Arguments verifyWithAsymmetricKey_try {World KeyLike} P values s.
Arguments verifyWithAsymmetricKey {World KeyLike} P values s.
Arguments verifyWithSymmetricKey_try {World KeyLike} P values s.
Arguments verifyWithSymmetricKey {World KeyLike} P values s.
Arguments verifyWithOpenId_try {World KeyLike} P values s.
Arguments verifyWithOpenId {World KeyLike} P values s.

(** ** Reading the list of calls *)

(** The calls of one run of the fetch helper for [url]: each request goes
    to [url] or to the proxy address of [url]. *)
Definition requests_for {KeyLike : Type} (url : string) (new : list (Call KeyLike))
  : Prop :=
  Forall (fun c => c = CallFetch url \/ c = CallFetch (proxyUrl url)) new.

(** A [try] block that comes to its end has shown a valid result with its
    details. *)
Definition shows_success {World KeyLike : Type} (s : St World KeyLike) : Prop :=
  exists text d, verificationResult (ui s) = Some (mkResult true text (Some d)).

(** The invariant of the shown result: there is one, and it carries
    details exactly when it is valid. *)
Definition details_iff_valid (result : option VerificationResult) : Prop :=
  exists r, result = Some r /\ (details r <> None <-> isValid r = true).

(** The result of the [catch] block for the thrown [error]. *)
Definition failure (error : Thrown) (fallback : string) : VerificationResult :=
  mkResult false (message_or error fallback) None.

(** The algorithm of the asymmetric handler, from the algorithm of the
    form and the token header: the form's when it is not falsy, else the
    header's [alg] when that is not falsy, else [RS256]. *)
Definition asymmetric_choice (override tokenHeader alg : JSValue) : Prop :=
  (truthy override = true /\ alg = override)
  \/ (truthy override = false
      /\ exists header_alg,
          get_prop tokenHeader "alg" = inr header_alg
          /\ ((truthy header_alg = true /\ alg = header_alg)
              \/ (truthy header_alg = false /\ alg = JString "RS256"))).

(** The calls of one run of the asymmetric handler: none when the header
    or the algorithm cannot be had; else the import of the key for the
    chosen algorithm and, when a key comes back, the verification with that
    key and that algorithm alone. *)
Definition asymmetric_calls {World KeyLike : Type} (P : Platform World KeyLike)
                            (values : AsymmetricKeyFormValues)
                            (new : list (Call KeyLike)) : Prop :=
  new = []
  \/ exists tokenHeader alg,
      parse_segment P (hd "" (js_split "." (asym_token values))) = inr tokenHeader
      /\ asymmetric_choice (optional_string (asym_algorithm values)) tokenHeader alg
      /\ (new = [CallImportSPKI (asym_publicKey values) alg]
          \/ exists key,
              new = [CallImportSPKI (asym_publicKey values) alg;
                     CallJwtVerify (asym_token values) (PublicKey key)
                       (mkOptions (Some [alg]) None)]).

(** The one call of a run of the symmetric handler. *)
Definition symmetric_call {KeyLike : Type} (values : SymmetricKeyFormValues)
  : Call KeyLike :=
  CallJwtVerify (sym_token values) (SecretBytes (utf8_encode (sym_secretKey values)))
    (mkOptions (Some [JString (hmac_name (sym_algorithm values))]) None).

(** No entry of [keys] has the [kid] of the token. *)
Definition no_entry_matches (keys : list JSValue) (kid : JSValue) : Prop :=
  Forall (fun key => exists k, get_prop key "kid" = inr k /\ strict_eq k kid = false)
         keys.

(** The run of the OpenID handler from [s] gets as far as the selection of
    the key: the discovery document came, it names a key set, and the key
    set [jwks] came, which leaves the state [s2]. *)
Definition keys_fetched {World KeyLike : Type} (P : Platform World KeyLike)
                        (values : OpenIdFormValues)
                        (s : St World KeyLike) (jwks : JSValue)
                        (s2 : St World KeyLike) : Prop :=
  exists configResponse s1 config jwksUri jwksResponse,
    fetchWithCorsProxyFallback P (openIdConfigUrl (oidc_issuerUrl values))
      (oidc_useCorsProxy values) (started s) = (inr configResponse, s1)
    /\ json configResponse = inr config
    /\ get_prop config "jwks_uri" = inr jwksUri
    /\ truthy jwksUri = true
    /\ fetchWithCorsProxyFallback P (to_string jwksUri)
         (oidc_useCorsProxy values) s1 = (inr jwksResponse, s2)
    /\ json jwksResponse = inr jwks.

(** The key that the OpenID handler finds for [token] in the key set
    [jwks]: the header of the token has a truthy [kid], [jwks.keys] is an
    array, and [key] is its first entry with that [kid]. *)
Definition key_selected {World KeyLike : Type} (P : Platform World KeyLike)
                        (token : string) (jwks key : JSValue) : Prop :=
  exists tokenHeader kid before after k,
    parse_segment P (hd "" (js_split "." token)) = inr tokenHeader
    /\ get_prop tokenHeader "kid" = inr kid
    /\ truthy kid = true
    /\ get_prop jwks "keys" = inr (JArray (before ++ key :: after))
    /\ no_entry_matches before kid
    /\ get_prop key "kid" = inr k
    /\ strict_eq k kid = true.

(** One call of the fetch helper from the state [s0]: its outcome, the
    state [s1] it leaves, and the requests [new] it has made, which are
    for [url] and at least one. *)
Definition helper_call {World KeyLike : Type} (P : Platform World KeyLike)
                       (url : string) (useCorsProxy : bool)
                       (s0 : St World KeyLike) (outcome : Thrown + Response)
                       (s1 : St World KeyLike) (new : list (Call KeyLike)) : Prop :=
  fetchWithCorsProxyFallback P url useCorsProxy s0 = (outcome, s1)
  /\ calls s1 = calls s0 ++ new
  /\ requests_for url new
  /\ new <> [].

(** The response holds a discovery document [config] that names the key
    set at [jwksUri]. *)
Definition names_key_set (response : Response) (config jwksUri : JSValue) : Prop :=
  json response = inr config
  /\ get_prop config "jwks_uri" = inr jwksUri
  /\ truthy jwksUri = true.

(** How one run of the [try] block of the OpenID handler goes from the
    state [s0], with the calls it makes: the requests [d] for the discovery
    document, the requests [j] for the key set, the verification [v]. *)
Inductive openId_run {World KeyLike : Type} (P : Platform World KeyLike)
                     (values : OpenIdFormValues) (s0 : St World KeyLike)
  : list (Call KeyLike) -> list (Call KeyLike) -> list (Call KeyLike) -> Prop :=
| Discovery_fails (error : Thrown) (s1 : St World KeyLike) (d : list (Call KeyLike)) :
    helper_call P (openIdConfigUrl (oidc_issuerUrl values)) (oidc_useCorsProxy values)
      s0 (inl error) s1 d ->
    openId_run P values s0 d [] []
| Discovery_unusable (configResponse : Response) (s1 : St World KeyLike)
                     (d : list (Call KeyLike)) :
    helper_call P (openIdConfigUrl (oidc_issuerUrl values)) (oidc_useCorsProxy values)
      s0 (inr configResponse) s1 d ->
    (forall config jwksUri, ~ names_key_set configResponse config jwksUri) ->
    openId_run P values s0 d [] []
| Key_set_fails (configResponse : Response) (s1 s2 : St World KeyLike)
                (d j : list (Call KeyLike)) (config jwksUri : JSValue)
                (error : Thrown) :
    helper_call P (openIdConfigUrl (oidc_issuerUrl values)) (oidc_useCorsProxy values)
      s0 (inr configResponse) s1 d ->
    names_key_set configResponse config jwksUri ->
    helper_call P (to_string jwksUri) (oidc_useCorsProxy values) s1 (inl error) s2 j ->
    openId_run P values s0 d j []
| Key_refused (configResponse jwksResponse : Response) (s1 s2 : St World KeyLike)
              (d j : list (Call KeyLike)) (config jwksUri : JSValue) :
    helper_call P (openIdConfigUrl (oidc_issuerUrl values)) (oidc_useCorsProxy values)
      s0 (inr configResponse) s1 d ->
    names_key_set configResponse config jwksUri ->
    helper_call P (to_string jwksUri) (oidc_useCorsProxy values) s1
      (inr jwksResponse) s2 j ->
    (forall jwks key,
        json jwksResponse = inr jwks -> ~ key_selected P (oidc_token values) jwks key) ->
    openId_run P values s0 d j []
| Address_refused (configResponse jwksResponse : Response) (s1 s2 : St World KeyLike)
                  (d j : list (Call KeyLike)) (config jwksUri jwks key : JSValue)
                  (error : Thrown) :
    helper_call P (openIdConfigUrl (oidc_issuerUrl values)) (oidc_useCorsProxy values)
      s0 (inr configResponse) s1 d ->
    names_key_set configResponse config jwksUri ->
    helper_call P (to_string jwksUri) (oidc_useCorsProxy values) s1
      (inr jwksResponse) s2 j ->
    json jwksResponse = inr jwks ->
    key_selected P (oidc_token values) jwks key ->
    platform_new_URL P (if oidc_useCorsProxy values then proxyUrl (to_string jwksUri)
                        else to_string jwksUri) = inl error ->
    openId_run P values s0 d j []
| Verified (configResponse jwksResponse : Response) (s1 s2 : St World KeyLike)
           (d j : list (Call KeyLike)) (config jwksUri jwks key config_issuer : JSValue)
           (href : string) :
    helper_call P (openIdConfigUrl (oidc_issuerUrl values)) (oidc_useCorsProxy values)
      s0 (inr configResponse) s1 d ->
    names_key_set configResponse config jwksUri ->
    helper_call P (to_string jwksUri) (oidc_useCorsProxy values) s1
      (inr jwksResponse) s2 j ->
    json jwksResponse = inr jwks ->
    key_selected P (oidc_token values) jwks key ->
    platform_new_URL P (if oidc_useCorsProxy values then proxyUrl (to_string jwksUri)
                        else to_string jwksUri) = inr href ->
    get_prop config "issuer" = inr config_issuer ->
    openId_run P values s0 d j
      [CallJwtVerify (oidc_token values) (RemoteJWKSet href)
         (mkOptions None (Some config_issuer))].

(** A call of the OpenID handler that started its [try] block in [s0]: a
    request, or a verification of [token] whose options are the issuer of
    the discovery document that the handler has fetched, and nothing
    else. *)
Definition discovery_issuer_only {World KeyLike : Type} (P : Platform World KeyLike)
                                 (values : OpenIdFormValues) (s0 : St World KeyLike)
                                 (c : Call KeyLike) : Prop :=
  match c with
  | CallFetch _ => True
  | CallImportSPKI _ _ => False
  | CallJwtVerify token _ options =>
      token = oidc_token values
      /\ exists configResponse s1 config config_issuer,
          fetchWithCorsProxyFallback P (openIdConfigUrl (oidc_issuerUrl values))
            (oidc_useCorsProxy values) s0 = (inr configResponse, s1)
          /\ json configResponse = inr config
          /\ get_prop config "issuer" = inr config_issuer
          /\ options = mkOptions None (Some config_issuer)
  end.

(** The state [s1] ends with a call of [jose.jwtVerify] that has resolved,
    and shows the payload and the header that the call resolved with. *)
Definition shows_jose_result {World KeyLike : Type} (P : Platform World KeyLike)
                             (s1 : St World KeyLike)
                             (r : VerificationResult) : Prop :=
  exists earlier token key options w result,
    calls s1 = earlier ++ [CallJwtVerify token key options]
    /\ platform_jwtVerify P token key options w = (inr result, world s1)
    /\ details r = Some (mkDetails (jwt_payload result) (jwt_protectedHeader result)).

(** The result a handler leaves: one that is not valid and has no details,
    or a valid one whose details are the payload and the header that the
    last call, a call of [jose.jwtVerify], resolved with. *)
Definition details_from_jose {World KeyLike : Type} (P : Platform World KeyLike)
                             (run : (Thrown + unit) * St World KeyLike) : Prop :=
  exists r,
    shown run = Some r
    /\ ((isValid r = false /\ details r = None)
        \/ (isValid r = true /\ shows_jose_result P (snd run) r)).

(** ** A scripted platform

    A platform to run the handlers on: the network answers the successive
    calls of [fetch] with the successive entries of a script, [JSON.parse]
    knows the texts of a table, every PEM text imports, and
    [jose.jwtVerify] gives a fixed verdict. *)

Definition Script : Type := list (Thrown + Response).

Definition scripted_fetch (url : string) (w : Script) : (Thrown + Response) * Script :=
  match w with
  | [] => (inl (ErrorObj "Failed to fetch"), [])
  | r :: w' => (r, w')
  end.

Definition table_parse (table : list (string * JSValue)) (text : string)
  : Thrown + JSValue :=
  match lookup text table with
  | Some v => inr v
  | None => inl (ErrorObj "Unexpected token")
  end.

Definition scripted_message (f : Fault) : string :=
  match f with
  | InvalidCharacterError => "The string to be decoded is not correctly encoded."
  | ReadOfNullish prop => "Cannot read properties of null (reading '" ++ prop ++ "')"
  | NotCallable prop => prop ++ " is not a function"
  end.

Definition scripted (table : list (string * JSValue))
                    (verdict : Thrown + JWTVerifyResult) : Platform Script string :=
  mkPlatform Script string
    scripted_fetch
    (table_parse table)
    (fun url => inr url)
    (fun pem _ w => (inr pem, w))
    (fun _ _ _ w => (verdict, w))
    scripted_message.

Definition status (text : string) : Thrown + Response :=
  inr (mkResponse false text (inl (ErrorObj "Unexpected end of JSON input"))).

Definition ok_json (body : JSValue) : Thrown + Response :=
  inr (mkResponse true "OK" (inr body)).

(** The JSON texts and values of the examples. *)
Definition member (k v : string) : string := quoted k ++ ":" ++ quoted v.

Definition object_text (k v : string) : string := "{" ++ member k v ++ "}".

Definition json_table : list (string * JSValue) :=
  [ ("{}", JObject []);
    (object_text "alg" "HS512", JObject [("alg", JString "HS512")]);
    (object_text "kid" "k1", JObject [("kid", JString "k1")]);
    (("{" ++ member "alg" "HS256" ++ "," ++ member "typ" "JWT" ++ "}")%string,
     JObject [("alg", JString "HS256"); ("typ", JString "JWT")]) ].

Definition accepted : Thrown + JWTVerifyResult :=
  inr (mkVerified (JObject [("iss", JString "https://idp.example")])
                  (JObject [("kid", JString "k1")])).

Definition rejected : Thrown + JWTVerifyResult :=
  inl (ErrorObj "signature verification failed").

Definition discovery_document : JSValue :=
  JObject [("issuer", JString "https://idp.example");
           ("jwks_uri", JString "https://idp.example/jwks")].

Definition jwk_set (kids : list string) : JSValue :=
  JObject [("keys", JArray (map (fun k => JObject [("kty", JString "RSA");
                                                   ("kid", JString k)]) kids))].

(** The platform and the inputs of the examples.  The header segments
    are [eyJraWQiOiJrMSJ9] for a header with the kid [k1],
    [eyJhbGciOiJIUzUxMiJ9] for a header with the alg [HS512],
    [eyJhbGciOiJIUzI1NiIsInR5cCI6IkpXVCJ9] for the header of an HS256 token,
    and [e30] for the empty object. *)
Definition accepting : Platform Script string := scripted json_table accepted.

Definition rejecting : Platform Script string := scripted json_table rejected.

Definition openId_direct : OpenIdFormValues :=
  mkOpenId "eyJraWQiOiJrMSJ9.e30.c2ln" "https://idp.example" false.

Definition openId_proxied : OpenIdFormValues :=
  mkOpenId "eyJraWQiOiJrMSJ9.e30.c2ln" "https://idp.example/" true.

Definition symmetric_HS256 : SymmetricKeyFormValues :=
  mkSymmetric "eyJhbGciOiJIUzUxMiJ9.e30.c2ln" "mysecret" HS256.

Definition asymmetric_plain : AsymmetricKeyFormValues :=
  mkAsymmetric "e30.e30.c2ln" "PEM" None.

(** A verification that is held to one algorithm. *)
Definition pinned {KeyLike : Type} (c : Call KeyLike) : Prop :=
  match c with
  | CallJwtVerify _ _ options => exists alg, algorithms options = Some [alg]
  | _ => True
  end.

(** ** jwt-tool.tsx and jwt-decoder.tsx: the state of the components *)

(** The state of [JwtTool]: the tab on show and the token handed to the
    verifier. *)
Record Tool : Type := mkTool {
  activeTab : string;
  currentJwt : string
}.

Definition handleJwtChange (jwt : string) (t : Tool) : Tool :=
  mkTool (activeTab t) jwt.

Definition handleTabChange (tab : string) (t : Tool) : Tool :=
  mkTool tab (currentJwt t).

(** The state of [JwtDecoder]: the text of the text box, the decoding on
    show ([None] is the object of three [null]s) and what was printed. *)
Record Decoder : Type := mkDecoder {
  jwtToken : string;
  decodedJwt : option DecodedJWT;
  decoder_notices : list Notice
}.

Section Components.

Variables World KeyLike : Type.
Variable P : Platform World KeyLike.

(** The parent of the decoder and the property [onJwtChange], which the
    parent may leave out. *)
Variable Parent : Type.
Variable onJwtChange : option (string -> Parent -> Parent).

(** [if (onJwtChange) { onJwtChange(jwt); }] *)
Definition notify_parent (jwt : string) (p : Parent) : Parent :=
  match onJwtChange with
  | Some f => f jwt p
  | None => p
  end.

Definition setJwtToken (value : string) (st : Decoder * Parent) : Decoder * Parent :=
  (mkDecoder value (decodedJwt (fst st)) (decoder_notices (fst st)), snd st).

Definition setDecodedJwt (d : option DecodedJWT) (st : Decoder * Parent)
  : Decoder * Parent :=
  (mkDecoder (jwtToken (fst st)) d (decoder_notices (fst st)), snd st).

Definition print (l : list Notice) (st : Decoder * Parent) : Decoder * Parent :=
  (mkDecoder (jwtToken (fst st)) (decodedJwt (fst st)) (decoder_notices (fst st) ++ l),
   snd st).

(** The callback [decodeJwt], with what it does to the state. *)
Definition decodeJwt_callback (st : Decoder * Parent) : Decoder * Parent :=
  let token := jwtToken (fst st) in
  match decodeJwt P token with
  | NothingEntered => print [ToastError "Please enter a JWT token"] st
  | Decoded d =>
      let st1 := setDecodedJwt (Some d) st in
      let st2 := (fst st1, notify_parent token (snd st1)) in
      print [ToastSuccess "JWT decoded successfully"] st2
  | DecodeError text =>
      print [ConsoleError "Error decoding JWT:"; ToastError text] st
  end.

Definition clearJwt (st : Decoder * Parent) : Decoder * Parent :=
  let st1 := setDecodedJwt None (setJwtToken "" st) in
  (fst st1, notify_parent "" (snd st1)).

(** The effect that decodes when the token changes. *)
Definition autoDecode (st : Decoder * Parent) : Decoder * Parent :=
  if negb (is_empty (trim (jwtToken (fst st)))) then decodeJwt_callback st
  else setDecodedJwt None st.

(** What can happen to the decoder: the text box is edited, after which
    the effect runs; one of the two buttons is clicked ([Clear] is disabled
    on a blank token, and the change of the token it makes runs the
    effect); the effect runs once more, as it does when the component is
    rendered with a new [onJwtChange]. *)
Inductive Action : Type :=
| Edit (value : string)
| ClickDecode
| ClickClear
| RunEffect.

Definition act (st : Decoder * Parent) (a : Action) : Decoder * Parent :=
  match a with
  | Edit value =>
      if String.eqb value (jwtToken (fst st)) then st
      else autoDecode (setJwtToken value st)
  | ClickDecode => decodeJwt_callback st
  | ClickClear =>
      if is_empty (trim (jwtToken (fst st))) then st
      else autoDecode (clearJwt st)
  | RunEffect => autoDecode st
  end.

Definition run_actions (actions : list Action) (st : Decoder * Parent)
  : Decoder * Parent :=
  fold_left act actions st.

End Components.

Arguments notify_parent {Parent} onJwtChange jwt p.
Arguments setJwtToken {Parent} value st.
Arguments setDecodedJwt {Parent} d st.
Arguments print {Parent} l st.
Arguments decodeJwt_callback {World KeyLike} P {Parent} onJwtChange st.
Arguments clearJwt {Parent} onJwtChange st.
Arguments autoDecode {World KeyLike} P {Parent} onJwtChange st.
Arguments act {World KeyLike} P {Parent} onJwtChange st a.
Arguments run_actions {World KeyLike} P {Parent} onJwtChange actions st.

(** The decoder as [JwtTool] mounts it: with [handleJwtChange], an empty
    text box and nothing decoded. *)
Definition mounted : Decoder * Tool :=
  (mkDecoder "" None [], mkTool "decode" "").

Definition tool_actions {World KeyLike : Type} (P : Platform World KeyLike)
                        (actions : list Action) : Decoder * Tool :=
  run_actions P (Some handleJwtChange) actions mounted.

(** The state a token leaves when it decodes. *)
Definition decodes_to {World KeyLike : Type} (P : Platform World KeyLike)
                      (token : string) (d : DecodedJWT) : Prop :=
  decodeJwt P token = Decoded d.

(** What the decoder keeps true: the token handed to the verifier is empty
    or one that decodes, and a decoding on show is the decoding of that
    token. *)
Definition decoder_invariant {World KeyLike : Type} (P : Platform World KeyLike)
                             (st : Decoder * Tool) : Prop :=
  (currentJwt (snd st) = "" \/ exists d, decodes_to P (currentJwt (snd st)) d)
  /\ (forall d, decodedJwt (fst st) = Some d -> decodes_to P (currentJwt (snd st)) d).

(** How a handler leaves the component, from the state [before] to the
    state [after]: not verifying any more, and either a valid result with
    the fixed [text] and one success toast, or the result of the [catch]
    block with the line on the console and the failure toast. *)
Definition reports (label fallback text toast : string) (before after : UI) : Prop :=
  isVerifying after = false
  /\ ((exists d,
         verificationResult after = Some (mkResult true text (Some d))
         /\ notices after = notices before ++ [ToastSuccess toast])
      \/ (exists error,
            verificationResult after = Some (failure error fallback)
            /\ notices after
               = notices before ++ [ConsoleError label;
                                    ToastError "JWT verification failed"])).

(** What a [try] block does to the component: nothing when it throws, the
    valid result and the success toast when it comes to its end. *)
Definition try_block_ui {World KeyLike : Type} (text toast : string)
                        (before : UI) (run : (Thrown + unit) * St World KeyLike)
  : Prop :=
  match run with
  | (inl _, s1) => ui s1 = before
  | (inr _, s1) =>
      exists d,
        ui s1 = mkUI (Some (mkResult true text (Some d))) (isVerifying before)
                     (notices before ++ [ToastSuccess toast])
  end.

(** * Properties *)

(** ** Splitting a token *)

Lemma js_split_nonempty (sep : ascii) (s : string) : js_split sep s <> [].
Proof.
  destruct s as [|a s']; simpl; [discriminate|].
  destruct (Ascii.eqb a sep); [discriminate|].
  destruct (js_split sep s'); discriminate.
Qed.

Lemma js_split_length (sep : ascii) (s : string) :
  length (js_split sep s) = S (count_char sep s).
Proof.
  induction s as [|a s' IH]; simpl; [reflexivity|].
  destruct (Ascii.eqb a sep); simpl.
  - now rewrite IH.
  - destruct (js_split sep s') as [|p ps] eqn:E.
    + now destruct (js_split_nonempty sep s').
    + simpl in *. exact IH.
Qed.

Lemma decodeJwt_parts_inr (token : string) (parts : list string) :
  decodeJwt_parts token = inr parts ->
  parts = js_split "." token /\ length parts = 3.
Proof.
  unfold decodeJwt_parts.
  destruct (Nat.eqb_spec (length (js_split "." token)) 3) as [E|E]; simpl.
  - intros H. injection H as <-. now split.
  - discriminate.
Qed.

(** C4, as the specification has it, fails: a token whose third part is
    empty has three parts, not all of them non-empty, and the three-part
    check of [decodeJwt] lets it through. *)
Lemma decodeJwt_parts_accepts_empty_part :
  ~ (forall token : string,
        decodeJwt_parts token = inl invalid_format <->
        ~ (length (js_split "." token) = 3
           /\ Forall (fun part => part <> "") (js_split "." token))).
Proof.
  intros claim.
  destruct (claim "e30.e30.") as [_ fails].
  assert (H : decodeJwt_parts "e30.e30." = inl invalid_format).
  { apply fails. intros [_ nonempty].
    vm_compute in nonempty.
    inversion nonempty as [|? ? _ T1]; subst.
    inversion T1 as [|? ? _ T2]; subst.
    inversion T2 as [|? ? E _]; subst.
    now apply E. }
  vm_compute in H. discriminate H.
Qed.

(** C4, amended: the three-part check of [decodeJwt] throws the
    invalid-format error exactly when splitting on [.] does not give three
    parts, empty or not, that is exactly when the token does not hold two
    dots; otherwise it goes on with the three parts. *)
Theorem decodeJwt_parts_three_parts (token : string) :
  (decodeJwt_parts token = inl invalid_format <->
   length (js_split "." token) <> 3)
  /\ (decodeJwt_parts token = inl invalid_format <->
      count_char "." token <> 2)
  /\ (decodeJwt_parts token = inl invalid_format
      \/ decodeJwt_parts token = inr (js_split "." token)).
Proof.
  unfold decodeJwt_parts.
  rewrite js_split_length.
  destruct (Nat.eqb_spec (S (count_char "." token)) 3) as [E|E]; simpl.
  - repeat split; try discriminate; try (intros H; exfalso; lia).
    now right.
  - repeat split; try reflexivity; try lia.
    now left.
Qed.

(** X19: in [decodeJwt], a token that is not blank and does not hold two
    dots ends in the invalid-format error, whatever the platform. *)
Lemma decodeJwt_invalid_format
  (World KeyLike : Type) (P : Platform World KeyLike) (token : string) :
  is_empty (trim token) = false ->
  count_char "." token <> 2 ->
  decodeJwt P token
  = DecodeError "Invalid JWT format. Expected three parts separated by dots.".
Proof.
  intros blank dots. unfold decodeJwt, decodeJwt_try, decodeJwt_parts.
  rewrite blank, js_split_length.
  destruct (Nat.eqb_spec (S (count_char "." token)) 3) as [E|E]; [lia|reflexivity].
Qed.

(** ** Decoding a segment *)

Lemma base64_values_outside (d : list ascii) (c : ascii) :
  In c d -> base64_value c = None -> base64_values d = None.
Proof.
  induction d as [|a d' IH]; simpl; [tauto|].
  intros [->|Hin] Hc.
  - now rewrite Hc.
  - rewrite (IH Hin Hc). now destruct (base64_value a).
Qed.

Lemma drop_last_eq_keeps (d : list ascii) (c : ascii) :
  In c d -> c <> "="%char -> In c (drop_last_eq d).
Proof.
  intros Hin Hc. unfold drop_last_eq.
  destruct (rev d) as [|x r] eqn:E; [exact Hin|].
  destruct (Ascii.eqb_spec x "="%char) as [->|Hx]; [|exact Hin].
  apply in_rev in Hin. rewrite E in Hin.
  destruct Hin as [<-|Hin]; [now destruct Hc|].
  now apply in_rev in Hin.
Qed.

Lemma strip_padding_keeps (d : list ascii) (c : ascii) :
  In c d -> c <> "="%char -> In c (strip_padding d).
Proof.
  intros Hin Hc. unfold strip_padding.
  destruct (length d mod 4 =? 0)%nat; [|exact Hin].
  now repeat apply drop_last_eq_keeps.
Qed.

(** Whatever holds a character outside the base64 alphabet, white space
    and [=] apart, is refused. *)
Lemma atob_outside_alphabet (data : string) (c : ascii) :
  In c (chars data) ->
  base64_value c = None ->
  is_ascii_whitespace c = false ->
  c <> "="%char ->
  atob data = inl InvalidCharacterError.
Proof.
  intros Hin Hv Hw Hc. unfold atob, forgiving_base64_decode.
  set (d := strip_padding _).
  assert (K : In c d).
  { apply strip_padding_keeps; [|exact Hc].
    apply filter_In. split; [exact Hin|now rewrite Hw]. }
  rewrite (base64_values_outside d c K Hv).
  now destruct (length d mod 4 =? 1)%nat.
Qed.

(** The two characters that Base64URL has and base64 has not. *)
Lemma atob_rejects_dash_and_underscore (data : string) :
  In "-"%char (chars data) \/ In "_"%char (chars data) ->
  atob data = inl InvalidCharacterError.
Proof.
  intros [H|H];
    (eapply atob_outside_alphabet; [exact H|reflexivity|reflexivity|discriminate]).
Qed.

(** C3: the segment [eyJzdWIiOiI_PyJ9] is Base64URL text, and [atob], which
    all three decoding places call, refuses it; with [/] in the place of [_]
    the text is no Base64URL text any more, and [atob] decodes it.  Padding
    may be there or not, and a length of 1 modulo 4 is refused. *)
Theorem atob_is_not_base64url :
  is_base64url_text "eyJzdWIiOiI_PyJ9" = true
  /\ atob "eyJzdWIiOiI_PyJ9" = inl InvalidCharacterError
  /\ is_base64url_text "eyJzdWIiOiI/PyJ9" = false
  /\ atob "eyJzdWIiOiI/PyJ9" = inr ("{" ++ member "sub" "??" ++ "}")%string
  /\ atob "e30" = inr "{}"%string
  /\ atob "e30=" = inr "{}"%string
  /\ atob "e30e3" = inl InvalidCharacterError.
Proof.
  repeat split; vm_compute; reflexivity.
Qed.

(** ** The fetch helper *)

Section Properties.

Variables World KeyLike : Type.
Variable P : Platform World KeyLike.

Abbreviation State := (St World KeyLike).

Ltac run_fetches :=
  repeat match goal with
    | |- context [platform_fetch P ?u ?w] =>
        let E := fresh "E" in
        destruct (platform_fetch P u w) as [[?|?] ?] eqn:E; simpl
    | |- context [if ok ?r then _ else _] =>
        let E := fresh "E" in
        destruct (ok r) eqn:E; simpl
    | |- context [negb (ok ?r)] =>
        let E := fresh "E" in
        destruct (ok r) eqn:E; simpl
    end.

Lemma fetchWithCorsProxyFallback_calls (url : string) (useCorsProxy : bool) (s : State) :
  exists new,
    calls (snd (fetchWithCorsProxyFallback P url useCorsProxy s)) = calls s ++ new
    /\ ui (snd (fetchWithCorsProxyFallback P url useCorsProxy s)) = ui s
    /\ requests_for url new
    /\ 1 <= length new <= 3.
Proof.
  unfold fetchWithCorsProxyFallback, try_catch, bind, fetch, ret, throw, requests_for.
  destruct useCorsProxy; simpl; run_fetches;
    rewrite <- ?app_assoc; simpl;
    (eexists; split; [reflexivity|]);
    (split; [reflexivity|]);
    (split; [repeat (apply Forall_cons || apply Forall_nil); auto | simpl; lia]).
Qed.

(** C10: the helper hands a response to its caller only when the
    response's [ok] is true, whatever the address and the proxy flag; in
    every other case it throws. *)
Theorem fetchWithCorsProxyFallback_returns_ok
  (url : string) (useCorsProxy : bool) (s s' : State) (response : Response) :
  fetchWithCorsProxyFallback P url useCorsProxy s = (inr response, s') ->
  ok response = true.
Proof.
  unfold fetchWithCorsProxyFallback, try_catch, bind, fetch, ret, throw.
  destruct useCorsProxy; simpl; run_fetches;
    intros H; inversion H; subst; assumption.
Qed.

(** When the direct request throws, the helper asks the proxy once. *)
Lemma fetchWithCorsProxyFallback_after_transport_error
  (url : string) (s : State) (e : Thrown) (w : World) :
  platform_fetch P url (world s) = (inl e, w) ->
  calls (snd (fetchWithCorsProxyFallback P url false s))
  = calls s ++ [CallFetch url; CallFetch (proxyUrl url)].
Proof.
  intros H.
  unfold fetchWithCorsProxyFallback, try_catch, bind, fetch, ret, throw.
  simpl. rewrite H. simpl. run_fetches; now rewrite <- app_assoc.
Qed.

(** C2: when the direct request comes back with a status that is not a
    success and the proxy request fails as well, by its status or by
    throwing, the failure is caught by the [catch] block of the helper,
    which asks the proxy a second time: three requests for one address,
    where a direct request that throws leads to two. *)
Theorem fetchWithCorsProxyFallback_after_two_failures
  (url : string) (s : State) (direct : Response) (w1 w2 : World)
  (proxied : Thrown + Response) :
  platform_fetch P url (world s) = (inr direct, w1) ->
  ok direct = false ->
  platform_fetch P (proxyUrl url) w1 = (proxied, w2) ->
  match proxied with inl _ => True | inr r => ok r = false end ->
  calls (snd (fetchWithCorsProxyFallback P url false s))
  = calls s ++ [CallFetch url; CallFetch (proxyUrl url); CallFetch (proxyUrl url)].
Proof.
  intros H1 K1 H2 K2.
  unfold fetchWithCorsProxyFallback, try_catch, bind, fetch, ret, throw.
  simpl. rewrite H1. simpl. rewrite K1. simpl. rewrite H2. simpl.
  destruct proxied as [e|r]; simpl; [|rewrite K2; simpl];
    run_fetches; now rewrite <- !app_assoc.
Qed.

(** ** The frame of the handlers *)

Lemma guarded_run (label fallback : string) (body : M World KeyLike unit) (s : State) :
  guarded label fallback body s =
  match body (started s) with
  | (inr _, s1) =>
      (inr tt,
       mkSt (world s1) (calls s1)
            (mkUI (verificationResult (ui s1)) false (notices (ui s1))))
  | (inl error, s1) =>
      (inr tt,
       mkSt (world s1) (calls s1)
            (mkUI (Some (mkResult false (message_or error fallback) None)) false
                  ((notices (ui s1) ++ [ConsoleError label])
                     ++ [ToastError "JWT verification failed"])))
  end.
Proof.
  unfold guarded, bind, try_finally, try_catch, fail_with, bind, setIsVerifying,
    setVerificationResult, notify, update_ui, started.
  simpl. destruct (body _) as [[error|[]] s1]; reflexivity.
Qed.

Lemma verifyWithAsymmetricKey_guarded (values : AsymmetricKeyFormValues) :
  verifyWithAsymmetricKey P values
  = guarded "Verification error:" "Verification failed"
            (verifyWithAsymmetricKey_try P values).
Proof. reflexivity. Qed.

Lemma verifyWithSymmetricKey_guarded (values : SymmetricKeyFormValues) :
  verifyWithSymmetricKey P values
  = guarded "Verification error:" "Verification failed"
            (verifyWithSymmetricKey_try P values).
Proof. reflexivity. Qed.

Lemma verifyWithOpenId_guarded (values : OpenIdFormValues) :
  verifyWithOpenId P values
  = guarded "OpenID verification error:" "OpenID verification failed"
            (verifyWithOpenId_try P values).
Proof. reflexivity. Qed.

(** ** Running the [try] blocks *)

#[local] Arguments fetchWithCorsProxyFallback : simpl never.
#[local] Arguments parse_segment : simpl never.
#[local] Arguments asymmetric_alg : simpl never.
#[local] Arguments select_key : simpl never.
#[local] Arguments to_string : simpl never.
#[local] Arguments proxyUrl : simpl never.
#[local] Arguments openIdConfigUrl : simpl never.
#[local] Arguments utf8_encode : simpl never.
#[local] Arguments get_prop : simpl never.
#[local] Arguments truthy : simpl never.

Ltac unfold_try :=
  unfold verifyWithAsymmetricKey_try, verifyWithSymmetricKey_try,
    verifyWithOpenId_try, bind, lift, jwtVerify, importSPKI, succeed, notify,
    setVerificationResult, update_ui, throw, ret, engine;
  simpl.

(** Follow the run: split on what the next call or test gives. *)
Ltac run_try :=
  repeat match goal with
    | |- context [match ?X with _ => _ end] => destruct X eqn:?; simpl
    end.

Lemma verifyWithAsymmetricKey_try_success
  (values : AsymmetricKeyFormValues) (s s1 : State) (u : unit) :
  verifyWithAsymmetricKey_try P values s = (inr u, s1) -> shows_success s1.
Proof.
  unfold_try. run_try; intros H; inversion H; subst; simpl;
    unfold shows_success; simpl; eauto.
Qed.

Lemma verifyWithSymmetricKey_try_success
  (values : SymmetricKeyFormValues) (s s1 : State) (u : unit) :
  verifyWithSymmetricKey_try P values s = (inr u, s1) -> shows_success s1.
Proof.
  unfold_try. run_try; intros H; inversion H; subst; simpl;
    unfold shows_success; simpl; eauto.
Qed.

Lemma verifyWithOpenId_try_success
  (values : OpenIdFormValues) (s s1 : State) (u : unit) :
  verifyWithOpenId_try P values s = (inr u, s1) -> shows_success s1.
Proof.
  unfold_try. run_try; intros H; inversion H; subst; simpl;
    unfold shows_success; simpl; eauto.
Qed.

(** ** The shown result *)

Lemma guarded_details_iff_valid
  (label fallback : string) (body : M World KeyLike unit) (s : State) :
  (forall s1 u, body (started s) = (inr u, s1) -> shows_success s1) ->
  details_iff_valid (shown (guarded label fallback body s)).
Proof.
  intros success. rewrite guarded_run. unfold details_iff_valid, shown.
  destruct (body (started s)) as [[error|u] s1] eqn:E; simpl.
  - eexists. split; [reflexivity|]. simpl. split; [congruence|discriminate].
  - destruct (success s1 u eq_refl) as (text & d & ->).
    eexists. split; [reflexivity|]. simpl. split; [reflexivity|discriminate].
Qed.

Ltac show_jose_result V :=
  intros H; inversion H; subst; simpl;
  eexists; split; [reflexivity|]; split; [reflexivity|];
  unfold shows_jose_result; simpl;
  do 6 eexists; split; [reflexivity|]; split; [exact V|reflexivity].

Lemma verifyWithAsymmetricKey_try_jose
  (values : AsymmetricKeyFormValues) (s s1 : State) (u : unit) :
  verifyWithAsymmetricKey_try P values s = (inr u, s1) ->
  exists r, verificationResult (ui s1) = Some r
            /\ isValid r = true /\ shows_jose_result P s1 r.
Proof.
  unfold verifyWithAsymmetricKey_try, bind, lift, importSPKI, jwtVerify, succeed,
    notify, setVerificationResult, update_ui.
  destruct (parse_segment P _) as [e|tokenHeader]; simpl; [discriminate|].
  destruct (asymmetric_alg P _ tokenHeader) as [e|alg]; simpl; [discriminate|].
  destruct (platform_importSPKI P _ _ _) as [[e|key] w]; simpl; [discriminate|].
  destruct (platform_jwtVerify P _ _ _ _) as [[e|result] w'] eqn:V; simpl;
    [discriminate|].
  show_jose_result V.
Qed.

Lemma verifyWithSymmetricKey_try_jose
  (values : SymmetricKeyFormValues) (s s1 : State) (u : unit) :
  verifyWithSymmetricKey_try P values s = (inr u, s1) ->
  exists r, verificationResult (ui s1) = Some r
            /\ isValid r = true /\ shows_jose_result P s1 r.
Proof.
  unfold verifyWithSymmetricKey_try, bind, jwtVerify, succeed, notify,
    setVerificationResult, update_ui.
  destruct (platform_jwtVerify P _ _ _ _) as [[e|result] w'] eqn:V; simpl;
    [discriminate|].
  show_jose_result V.
Qed.

Lemma verifyWithOpenId_try_jose
  (values : OpenIdFormValues) (s s1 : State) (u : unit) :
  verifyWithOpenId_try P values s = (inr u, s1) ->
  exists r, verificationResult (ui s1) = Some r
            /\ isValid r = true /\ shows_jose_result P s1 r.
Proof.
  unfold verifyWithOpenId_try, bind, lift, throw.
  destruct (fetchWithCorsProxyFallback P _ _ s) as [[e|configResponse] s2];
    simpl; [discriminate|].
  destruct (json configResponse) as [e|config]; simpl; [discriminate|].
  destruct (engine P (get_prop config "jwks_uri")) as [e|jwksUri]; simpl;
    [discriminate|].
  destruct (truthy jwksUri); simpl; [|discriminate].
  destruct (fetchWithCorsProxyFallback P _ _ s2) as [[e|jwksResponse] s3];
    simpl; [discriminate|].
  destruct (json jwksResponse) as [e|jwks]; simpl; [discriminate|].
  destruct (select_key P (oidc_token values) jwks) as [e|matchingKey]; simpl;
    [discriminate|].
  destruct (platform_new_URL P _) as [e|href]; simpl; [discriminate|].
  destruct (engine P (get_prop config "issuer")) as [e|config_issuer]; simpl;
    [discriminate|].
  unfold jwtVerify, succeed, notify, setVerificationResult, update_ui, bind.
  simpl.
  destruct (platform_jwtVerify P _ _ _ _) as [[e|result] w'] eqn:V; simpl;
    [discriminate|].
  show_jose_result V.
Qed.

Lemma guarded_details_from_jose
  (label fallback : string) (body : M World KeyLike unit) (s : State) :
  (forall s1 u,
      body (started s) = (inr u, s1) ->
      exists r, verificationResult (ui s1) = Some r
                /\ isValid r = true /\ shows_jose_result P s1 r) ->
  details_from_jose P (guarded label fallback body s).
Proof.
  intros success. rewrite guarded_run. unfold details_from_jose, shown.
  destruct (body (started s)) as [[error|u] s1] eqn:E; simpl.
  - eexists. split; [reflexivity|]. left. now split.
  - destruct (success s1 u eq_refl) as (r & -> & valid & jose).
    exists r. split; [reflexivity|]. right. split; [exact valid|].
    exact jose.
Qed.

(** C7: whatever the three handlers are given and whatever the platform
    answers, the result they leave on show has details exactly when it is
    valid: a result that is not valid has none, and the details of a valid
    result are the payload and the protected header that the call of
    [jose.jwtVerify], the last call of the run, resolved with. *)
Theorem shown_details_iff_valid
  (asymmetric : AsymmetricKeyFormValues) (symmetric : SymmetricKeyFormValues)
  (openId : OpenIdFormValues) (s : State) :
  (details_iff_valid (shown (verifyWithAsymmetricKey P asymmetric s))
   /\ details_from_jose P (verifyWithAsymmetricKey P asymmetric s))
  /\ (details_iff_valid (shown (verifyWithSymmetricKey P symmetric s))
      /\ details_from_jose P (verifyWithSymmetricKey P symmetric s))
  /\ (details_iff_valid (shown (verifyWithOpenId P openId s))
      /\ details_from_jose P (verifyWithOpenId P openId s)).
Proof.
  rewrite verifyWithAsymmetricKey_guarded, verifyWithSymmetricKey_guarded,
    verifyWithOpenId_guarded.
  repeat apply conj;
    (apply guarded_details_iff_valid || apply guarded_details_from_jose);
    intros s1 u.
  - apply verifyWithAsymmetricKey_try_success.
  - apply verifyWithAsymmetricKey_try_jose.
  - apply verifyWithSymmetricKey_try_success.
  - apply verifyWithSymmetricKey_try_jose.
  - apply verifyWithOpenId_try_success.
  - apply verifyWithOpenId_try_jose.
Qed.

Lemma guarded_catches
  (label fallback : string) (body : M World KeyLike unit) (s : State) :
  fst (guarded label fallback body s) = inr tt
  /\ match body (started s) with
     | (inl error, _) =>
         shown (guarded label fallback body s) = Some (failure error fallback)
     | (inr _, _) => True
     end.
Proof.
  rewrite guarded_run. unfold shown, failure.
  destruct (body (started s)) as [[error|u] s1]; simpl; split; trivial.
Qed.

(** C8: a handler never throws; and when its [try] block throws, at
    whatever stage, the result on show is not valid and carries the
    message of the error, or the fixed text when what was thrown is no
    [Error]. *)
Theorem handlers_catch_every_error
  (asymmetric : AsymmetricKeyFormValues) (symmetric : SymmetricKeyFormValues)
  (openId : OpenIdFormValues) (s : State) :
  (fst (verifyWithAsymmetricKey P asymmetric s) = inr tt
   /\ match verifyWithAsymmetricKey_try P asymmetric (started s) with
      | (inl error, _) =>
          shown (verifyWithAsymmetricKey P asymmetric s)
          = Some (failure error "Verification failed")
      | (inr _, _) => True
      end)
  /\ (fst (verifyWithSymmetricKey P symmetric s) = inr tt
      /\ match verifyWithSymmetricKey_try P symmetric (started s) with
         | (inl error, _) =>
             shown (verifyWithSymmetricKey P symmetric s)
             = Some (failure error "Verification failed")
         | (inr _, _) => True
         end)
  /\ (fst (verifyWithOpenId P openId s) = inr tt
      /\ match verifyWithOpenId_try P openId (started s) with
         | (inl error, _) =>
             shown (verifyWithOpenId P openId s)
             = Some (failure error "OpenID verification failed")
         | (inr _, _) => True
         end).
Proof.
  rewrite verifyWithAsymmetricKey_guarded, verifyWithSymmetricKey_guarded,
    verifyWithOpenId_guarded.
  repeat apply conj; apply guarded_catches.
Qed.

(** ** The calls of the handlers *)

Lemma guarded_calls (label fallback : string) (body : M World KeyLike unit) (s : State) :
  calls (snd (guarded label fallback body s)) = calls (snd (body (started s))).
Proof.
  rewrite guarded_run. now destruct (body (started s)) as [[error|u] s1].
Qed.

Lemma at_least_one (l : list (Call KeyLike)) : 1 <= length l <= 3 -> l <> [].
Proof. destruct l; simpl; [lia|discriminate]. Qed.

Lemma asymmetric_alg_choice (algorithm : option string) (tokenHeader alg : JSValue) :
  asymmetric_alg P algorithm tokenHeader = inr alg ->
  asymmetric_choice (optional_string algorithm) tokenHeader alg.
Proof.
  unfold asymmetric_alg, asymmetric_choice, ebind, engine, js_or.
  destruct (truthy (optional_string algorithm)) eqn:T.
  - intros H. injection H as <-. now left.
  - destruct (get_prop tokenHeader "alg") as [f|header_alg] eqn:G; [discriminate|].
    intros H. injection H as <-. right. split; [reflexivity|].
    exists header_alg. split; [reflexivity|].
    destruct (truthy header_alg); [left|right]; now split.
Qed.

Lemma verifyWithAsymmetricKey_try_calls (values : AsymmetricKeyFormValues) (s : State) :
  exists new,
    calls (snd (verifyWithAsymmetricKey_try P values s)) = calls s ++ new
    /\ asymmetric_calls P values new.
Proof.
  unfold verifyWithAsymmetricKey_try, asymmetric_calls, bind, lift, importSPKI,
    jwtVerify, succeed, notify, setVerificationResult, update_ui.
  destruct (parse_segment P _) as [e|tokenHeader] eqn:Hp; simpl.
  { exists []. rewrite app_nil_r. now split; [|left]. }
  destruct (asymmetric_alg P _ tokenHeader) as [e|alg] eqn:Ha; simpl.
  { exists []. rewrite app_nil_r. now split; [|left]. }
  apply asymmetric_alg_choice in Ha.
  destruct (platform_importSPKI P _ _ _) as [[e|key] w]; simpl.
  { eexists. split; [reflexivity|]. right. exists tokenHeader, alg. auto. }
  destruct (platform_jwtVerify P _ _ _ _) as [[e|result] w']; simpl;
    rewrite <- app_assoc; simpl;
    (eexists; split; [reflexivity|]); right; exists tokenHeader, alg; eauto.
Qed.

Lemma verifyWithSymmetricKey_try_calls (values : SymmetricKeyFormValues) (s : State) :
  calls (snd (verifyWithSymmetricKey_try P values s))
  = calls s ++ [symmetric_call values].
Proof.
  unfold verifyWithSymmetricKey_try, symmetric_call, bind, jwtVerify, succeed,
    notify, setVerificationResult, update_ui.
  now destruct (platform_jwtVerify P _ _ _ _) as [[e|result] w].
Qed.

(** C9: with no algorithm in the form (none, or the empty text) and a token
    header without [alg], the key is imported for [RS256] and, when the
    import gives a key, the token is verified against that key with
    [RS256] as the one algorithm allowed. *)
Theorem verifyWithAsymmetricKey_defaults_to_RS256
  (values : AsymmetricKeyFormValues) (s : State) (tokenHeader : JSValue) :
  truthy (optional_string (asym_algorithm values)) = false ->
  parse_segment P (hd "" (js_split "." (asym_token values))) = inr tokenHeader ->
  get_prop tokenHeader "alg" = inr JUndefined ->
  match platform_importSPKI P (asym_publicKey values) (JString "RS256") (world s) with
  | (inl _, _) =>
      calls (snd (verifyWithAsymmetricKey P values s))
      = calls s ++ [CallImportSPKI (asym_publicKey values) (JString "RS256")]
  | (inr key, _) =>
      calls (snd (verifyWithAsymmetricKey P values s))
      = calls s ++ [CallImportSPKI (asym_publicKey values) (JString "RS256");
                    CallJwtVerify (asym_token values) (PublicKey key)
                      (mkOptions (Some [JString "RS256"]) None)]
  end.
Proof.
  intros Hform Hparse Halg.
  rewrite verifyWithAsymmetricKey_guarded, guarded_calls.
  unfold verifyWithAsymmetricKey_try, bind, lift, importSPKI, jwtVerify, succeed,
    notify, setVerificationResult, update_ui.
  rewrite Hparse. simpl.
  unfold asymmetric_alg, ebind, engine. rewrite Hform, Halg. simpl.
  destruct (platform_importSPKI P _ _ _) as [[e|key] w]; simpl; [reflexivity|].
  destruct (platform_jwtVerify P _ _ _ _) as [[e|result] w']; simpl;
    now rewrite <- app_assoc.
Qed.

Lemma asymmetric_calls_no_fetch (values : AsymmetricKeyFormValues) (new : list (Call KeyLike)) :
  asymmetric_calls P values new -> fetches new = [].
Proof.
  intros [->|(tokenHeader & alg & _ & _ & [->|(key & ->)])]; reflexivity.
Qed.

(** ** The selection of the key *)

Lemma array_find_kid_none (keys : list JSValue) (kid : JSValue) :
  no_entry_matches keys kid -> array_find_kid keys kid = inr JUndefined.
Proof.
  unfold no_entry_matches.
  induction 1 as [|key rest (k & G & N) _ IH]; simpl; [reflexivity|].
  now rewrite G, N.
Qed.

Lemma array_find_kid_first (before after : list JSValue) (key kid k : JSValue) :
  no_entry_matches before kid ->
  get_prop key "kid" = inr k ->
  strict_eq k kid = true ->
  array_find_kid (before ++ key :: after) kid = inr key.
Proof.
  unfold no_entry_matches. intros none G E.
  induction none as [|key' rest (k' & G' & N') _ IH]; simpl.
  - now rewrite G, E.
  - now rewrite G', N'.
Qed.

Lemma jwks_keys_find_array (jwks kid : JSValue) (keys : list JSValue) :
  get_prop jwks "keys" = inr (JArray keys) ->
  jwks_keys_find jwks kid = array_find_kid keys kid.
Proof.
  unfold get_prop, jwks_keys_find.
  destruct jwks as [| | | | | |props]; try discriminate.
  destruct (lookup "keys" props) as [x|]; [|discriminate].
  intros H. now injection H as ->.
Qed.

Lemma matching_key_truthy (key kid k : JSValue) :
  get_prop key "kid" = inr k ->
  strict_eq k kid = true ->
  truthy kid = true ->
  truthy key = true.
Proof.
  unfold get_prop.
  destruct key; try reflexivity; try discriminate;
    intros H; injection H as <-; destruct kid; discriminate.
Qed.

Lemma select_key_missing_kid (token : string) (jwks tokenHeader kid : JSValue) :
  parse_segment P (hd "" (js_split "." token)) = inr tokenHeader ->
  get_prop tokenHeader "kid" = inr kid ->
  truthy kid = false ->
  select_key P token jwks = inl missing_kid.
Proof.
  intros Hp Hk T. unfold select_key, ebind, engine.
  now rewrite Hp, Hk, T.
Qed.

Lemma select_key_not_found
  (token : string) (jwks tokenHeader kid : JSValue) (keys : list JSValue) :
  parse_segment P (hd "" (js_split "." token)) = inr tokenHeader ->
  get_prop tokenHeader "kid" = inr kid ->
  truthy kid = true ->
  get_prop jwks "keys" = inr (JArray keys) ->
  no_entry_matches keys kid ->
  select_key P token jwks = inl (no_matching_key kid).
Proof.
  intros Hp Hk T Hj none. unfold select_key, ebind, engine.
  rewrite Hp, Hk, T. simpl.
  now rewrite (jwks_keys_find_array jwks kid keys Hj), (array_find_kid_none keys kid none).
Qed.

Lemma select_key_first
  (token : string) (jwks tokenHeader kid key k : JSValue)
  (before after : list JSValue) :
  parse_segment P (hd "" (js_split "." token)) = inr tokenHeader ->
  get_prop tokenHeader "kid" = inr kid ->
  truthy kid = true ->
  get_prop jwks "keys" = inr (JArray (before ++ key :: after)) ->
  no_entry_matches before kid ->
  get_prop key "kid" = inr k ->
  strict_eq k kid = true ->
  select_key P token jwks = inr key.
Proof.
  intros Hp Hk T Hj none G E. unfold select_key, ebind, engine.
  rewrite Hp, Hk, T. simpl.
  rewrite (jwks_keys_find_array jwks kid _ Hj),
    (array_find_kid_first before after key kid k none G E).
  now rewrite (matching_key_truthy key kid k G E T).
Qed.

Lemma verifyWithOpenId_key_refused
  (values : OpenIdFormValues) (s s2 : State) (jwks : JSValue) (error : Thrown) :
  keys_fetched P values s jwks s2 ->
  select_key P (oidc_token values) jwks = inl error ->
  shown (verifyWithOpenId P values s)
  = Some (failure error "OpenID verification failed")
  /\ calls (snd (verifyWithOpenId P values s)) = calls s2.
Proof.
  intros (configResponse & s1 & config & jwksUri & jwksResponse
          & F1 & J1 & U & T & F2 & J2) K.
  rewrite verifyWithOpenId_guarded, guarded_run.
  unfold verifyWithOpenId_try, bind, lift, throw, engine, shown, failure.
  rewrite F1. simpl. rewrite J1, U. simpl. rewrite T. simpl.
  rewrite F2. simpl. rewrite J2. simpl. rewrite K. simpl. now split.
Qed.

Lemma array_find_kid_found (keys : list JSValue) (kid key : JSValue) :
  array_find_kid keys kid = inr key ->
  truthy key = true ->
  exists before after k,
    keys = before ++ key :: after
    /\ no_entry_matches before kid
    /\ get_prop key "kid" = inr k
    /\ strict_eq k kid = true.
Proof.
  unfold no_entry_matches.
  induction keys as [|first rest IH]; simpl.
  - intros H T. injection H as <-. discriminate T.
  - destruct (get_prop first "kid") as [f|k] eqn:G; [discriminate|].
    destruct (strict_eq k kid) eqn:E.
    + intros H _. injection H as <-. exists [], rest, k. now repeat split.
    + intros H T. destruct (IH H T) as (before & after & k' & -> & none & G' & E').
      exists (first :: before), after, k'. repeat split; trivial.
      constructor; [now exists k|exact none].
Qed.

Lemma jwks_keys_find_found (jwks kid key : JSValue) :
  jwks_keys_find jwks kid = inr key ->
  exists keys, get_prop jwks "keys" = inr (JArray keys)
               /\ array_find_kid keys kid = inr key.
Proof.
  unfold jwks_keys_find, get_prop.
  destruct jwks as [| | | | | |props]; try discriminate.
  destruct (lookup "keys" props) as [[| | | | |keys|]|]; try discriminate.
  intros H. now exists keys.
Qed.

(** [select_key] returns a key exactly when that key is selected: the
    first entry of the key set with the [kid] of the token. *)
Lemma select_key_selected (token : string) (jwks key : JSValue) :
  select_key P token jwks = inr key <-> key_selected P token jwks key.
Proof.
  split.
  - unfold select_key, ebind, engine.
    destruct (parse_segment P _) as [e|tokenHeader] eqn:Hp; [discriminate|].
    destruct (get_prop tokenHeader "kid") as [f|kid] eqn:Hk; [discriminate|].
    destruct (truthy kid) eqn:T; simpl; [|discriminate].
    destruct (jwks_keys_find jwks kid) as [f|found] eqn:F; [discriminate|].
    destruct (truthy found) eqn:Tf; simpl; [|discriminate].
    intros H. injection H as <-.
    destruct (jwks_keys_find_found jwks kid found F) as (keys & Hj & A).
    destruct (array_find_kid_found keys kid found A Tf)
      as (before & after & k & -> & none & G & E).
    now exists tokenHeader, kid, before, after, k.
  - intros (tokenHeader & kid & before & after & k & Hp & Hk & T & Hj & none & G & E).
    exact (select_key_first token jwks tokenHeader kid key k before after
             Hp Hk T Hj none G E).
Qed.

Lemma get_prop_defined (v x : JSValue) (a b : string) :
  get_prop v a = inr x -> exists y, get_prop v b = inr y.
Proof.
  unfold get_prop. destruct v; try discriminate; intros _; eauto.
  destruct (lookup b props); eauto.
Qed.

Lemma helper_call_run (url : string) (useCorsProxy : bool) (s0 : State) :
  exists new,
    helper_call P url useCorsProxy s0
      (fst (fetchWithCorsProxyFallback P url useCorsProxy s0))
      (snd (fetchWithCorsProxyFallback P url useCorsProxy s0)) new.
Proof.
  destruct (fetchWithCorsProxyFallback_calls url useCorsProxy s0)
    as (new & Hc & _ & R & L).
  exists new. unfold helper_call.
  destruct (fetchWithCorsProxyFallback P url useCorsProxy s0) as [outcome s1].
  simpl in *. repeat split; trivial. now apply at_least_one.
Qed.

(** The run of the [try] block of the OpenID handler, stage by stage. *)
Lemma verifyWithOpenId_try_run (values : OpenIdFormValues) (s0 : State) :
  exists d j v,
    calls (snd (verifyWithOpenId_try P values s0)) = calls s0 ++ d ++ j ++ v
    /\ openId_run P values s0 d j v.
Proof.
  unfold verifyWithOpenId_try, bind, lift, throw.
  set (url := openIdConfigUrl (oidc_issuerUrl values)).
  set (flag := oidc_useCorsProxy values).
  destruct (helper_call_run url flag s0) as (d & H1).
  destruct (fetchWithCorsProxyFallback P url flag s0) as [[e|configResponse] s1];
    simpl in H1 |- *.
  { exists d, [], []. rewrite !app_nil_r. split; [apply H1|].
    exact (Discovery_fails P values s0 e s1 d H1). }
  assert (Hd : calls s1 = calls s0 ++ d) by apply H1.
  assert (unusable : (forall config jwksUri, ~ names_key_set configResponse config jwksUri) ->
                     exists d0 j0 v0, calls s1 = calls s0 ++ d0 ++ j0 ++ v0
                                      /\ openId_run P values s0 d0 j0 v0).
  { intros none. exists d, [], []. rewrite !app_nil_r. split; [exact Hd|].
    exact (Discovery_unusable P values s0 configResponse s1 d H1 none). }
  destruct (json configResponse) as [e|config] eqn:J1; simpl.
  { apply unusable. intros config jwksUri (K & _). congruence. }
  unfold engine.
  destruct (get_prop config "jwks_uri") as [f|jwksUri] eqn:U; simpl.
  { apply unusable. intros config' jwksUri (K & K' & _). congruence. }
  destruct (truthy jwksUri) eqn:T; simpl.
  2:{ apply unusable. intros config' jwksUri' (K & K' & K''). congruence. }
  assert (names : names_key_set configResponse config jwksUri) by now repeat split.
  destruct (helper_call_run (to_string jwksUri) flag s1) as (j & H2).
  destruct (fetchWithCorsProxyFallback P (to_string jwksUri) flag s1)
    as [[e|jwksResponse] s2]; simpl in H2 |- *.
  { exists d, j, []. rewrite app_nil_r, app_assoc, <- Hd. split; [apply H2|].
    exact (Key_set_fails P values s0 configResponse s1 s2 d j config jwksUri e
             H1 names H2). }
  assert (Hj : calls s2 = calls s0 ++ d ++ j ++ []).
  { rewrite app_nil_r, app_assoc, <- Hd. apply H2. }
  destruct (json jwksResponse) as [e|jwks] eqn:J2; simpl.
  { exists d, j, []. split; [exact Hj|].
    apply (Key_refused P values s0 configResponse jwksResponse s1 s2 d j config jwksUri
             H1 names H2).
    intros jwks key K. congruence. }
  destruct (select_key P (oidc_token values) jwks) as [e|key] eqn:K; simpl.
  { exists d, j, []. split; [exact Hj|].
    apply (Key_refused P values s0 configResponse jwksResponse s1 s2 d j config jwksUri
             H1 names H2).
    intros jwks' key K' selected. rewrite J2 in K'. injection K' as <-.
    apply select_key_selected in selected. congruence. }
  apply select_key_selected in K.
  destruct (platform_new_URL P _) as [e|href] eqn:N; simpl.
  { exists d, j, []. split; [exact Hj|].
    exact (Address_refused P values s0 configResponse jwksResponse s1 s2 d j config
             jwksUri jwks key e H1 names H2 J2 K N). }
  destruct (get_prop_defined config jwksUri "jwks_uri" "issuer" U) as [config_issuer I].
  rewrite I. simpl.
  unfold jwtVerify, succeed, notify, setVerificationResult, update_ui, bind.
  simpl.
  exists d, j, [CallJwtVerify (oidc_token values) (RemoteJWKSet href)
                  (mkOptions None (Some config_issuer))].
  split.
  - rewrite app_nil_r in Hj.
    destruct (platform_jwtVerify P _ _ _ _) as [[e|result] w]; simpl;
      now rewrite Hj, <- !app_assoc.
  - exact (Verified P values s0 configResponse jwksResponse s1 s2 d j config jwksUri
             jwks key config_issuer href H1 names H2 J2 K N I).
Qed.

Lemma requests_discovery_issuer_only
  (values : OpenIdFormValues) (s0 : State) (url : string) (l : list (Call KeyLike)) :
  requests_for url l -> Forall (discovery_issuer_only P values s0) l.
Proof.
  unfold requests_for. intros H. eapply Forall_impl; [|exact H].
  intros c [->| ->]; exact I.
Qed.

Lemma openId_run_issuer_only
  (values : OpenIdFormValues) (s0 : State) (d j v : list (Call KeyLike)) :
  openId_run P values s0 d j v ->
  Forall (discovery_issuer_only P values s0) (d ++ j ++ v).
Proof.
  intros run. rewrite !Forall_app.
  destruct run as [e s1 d H1
                  |cr s1 d H1 none
                  |cr s1 s2 d j config jwksUri e H1 names H2
                  |cr jr s1 s2 d j config jwksUri H1 names H2 none
                  |cr jr s1 s2 d j config jwksUri jwks key e H1 names H2 J2 K N
                  |cr jr s1 s2 d j config jwksUri jwks key iss href H1 names H2 J2 K N I];
    unfold helper_call, names_key_set in *;
    repeat match goal with H : _ /\ _ |- _ => destruct H end;
    (split; [eapply requests_discovery_issuer_only; eassumption|]);
    (split; [first [apply Forall_nil
                   |eapply requests_discovery_issuer_only; eassumption]|]);
    try apply Forall_nil.
  constructor; [|apply Forall_nil]. simpl. split; [reflexivity|].
  exists cr, s1, config, iss. now repeat split.
Qed.

(** C1, amended: the asymmetric handler verifies with one algorithm, which
    is the algorithm of the form when there is one, else the [alg] of the
    token header when there is one, else [RS256]; the symmetric handler
    verifies with the one algorithm of its form, whatever the token header
    says; the OpenID handler gives [jose.jwtVerify] no algorithm at all:
    the options of its call are the issuer of the discovery document that
    the handler has fetched, and nothing else. *)
Theorem algorithms_given_to_jwtVerify
  (asymmetric : AsymmetricKeyFormValues) (symmetric : SymmetricKeyFormValues)
  (openId : OpenIdFormValues) (s : State) :
  (exists new,
      calls (snd (verifyWithAsymmetricKey P asymmetric s)) = calls s ++ new
      /\ asymmetric_calls P asymmetric new)
  /\ calls (snd (verifyWithSymmetricKey P symmetric s))
     = calls s ++ [symmetric_call symmetric]
  /\ (exists new,
         calls (snd (verifyWithOpenId P openId s)) = calls s ++ new
         /\ Forall (discovery_issuer_only P openId (started s)) new).
Proof.
  rewrite verifyWithAsymmetricKey_guarded, verifyWithSymmetricKey_guarded,
    verifyWithOpenId_guarded, !guarded_calls.
  split; [|split].
  - exact (verifyWithAsymmetricKey_try_calls asymmetric (started s)).
  - exact (verifyWithSymmetricKey_try_calls symmetric (started s)).
  - destruct (verifyWithOpenId_try_run openId (started s)) as (d & j & v & H & K).
    exists (d ++ j ++ v). split; [exact H|].
    exact (openId_run_issuer_only openId (started s) d j v K).
Qed.


Lemma verifyWithOpenId_key_accepted
  (values : OpenIdFormValues) (s s2 : State) (jwks key : JSValue) :
  keys_fetched P values s jwks s2 ->
  select_key P (oidc_token values) jwks = inr key ->
  (exists error url,
      platform_new_URL P url = inl error
      /\ shown (verifyWithOpenId P values s)
         = Some (failure error "OpenID verification failed")
      /\ calls (snd (verifyWithOpenId P values s)) = calls s2)
  \/ (exists href config_issuer,
         calls (snd (verifyWithOpenId P values s))
         = calls s2 ++ [CallJwtVerify (oidc_token values) (RemoteJWKSet href)
                          (mkOptions None (Some config_issuer))]).
Proof.
  intros (configResponse & s1 & config & jwksUri & jwksResponse
          & F1 & J1 & U & T & F2 & J2) K.
  destruct (get_prop_defined config jwksUri "jwks_uri" "issuer" U) as [config_issuer I].
  rewrite verifyWithOpenId_guarded, guarded_run.
  unfold verifyWithOpenId_try, bind, lift, throw, engine, shown, failure.
  rewrite F1. simpl. rewrite J1, U. simpl. rewrite T. simpl.
  rewrite F2. simpl. rewrite J2. simpl. rewrite K. simpl.
  destruct (platform_new_URL P _) as [e|href] eqn:N; simpl.
  - left. exists e. eexists. split; [exact N|]. now split.
  - right. exists href, config_issuer. rewrite I. simpl.
    unfold jwtVerify, succeed, notify, setVerificationResult, update_ui, bind.
    simpl. now destruct (platform_jwtVerify P _ _ _ _) as [[e|result] w].
Qed.


End Properties.


(** * Runs on the scripted platform *)

(** C1, as the specification has it, fails: with a discovery document and
    a key set that holds the key of the token, the OpenID handler calls
    [jose.jwtVerify] with the issuer alone, so that the call is not held to
    one algorithm; and the symmetric handler, for a token whose header says
    [HS512], verifies with the [HS256] of the form. *)
Lemma verification_not_pinned_to_header_algorithm :
  ~ Forall pinned
      (calls (snd (verifyWithOpenId accepting openId_direct
                     (initial [ok_json discovery_document;
                               ok_json (jwk_set ["k0"; "k1"])]))))
  /\ parse_segment rejecting (hd "" (js_split "." (sym_token symmetric_HS256)))
     = inr (JObject [("alg", JString "HS512")])
  /\ calls (snd (verifyWithSymmetricKey rejecting symmetric_HS256 (initial [])))
     = [CallJwtVerify "eyJhbGciOiJIUzUxMiJ9.e30.c2ln"
          (SecretBytes (utf8_encode "mysecret"))
          (mkOptions (Some [JString "HS256"]) None)].
Proof.
  split; [|split; reflexivity].
  intros H.
  apply Forall_inv_tail, Forall_inv_tail, Forall_inv in H.
  destruct H as [alg K]. discriminate K.
Qed.

(** The direct request is answered 404, the first proxy request 502.  The
    error of that proxy request is thrown inside the [try] block, whose
    [catch] block then asks the proxy once more: the error that comes out
    is the one of the third request. *)
Lemma fetchWithCorsProxyFallback_asks_proxy_twice :
  fetchWithCorsProxyFallback accepting "https://idp.example/jwks" false
    (initial [status "Not Found"; status "Bad Gateway"; status "Service Unavailable"])
  = (inl (ErrorObj ("Failed to fetch from https://idp.example/jwks"
                    ++ " (with CORS proxy fallback): Service Unavailable")),
     mkSt []
          [CallFetch "https://idp.example/jwks";
           CallFetch "https://corsproxy.io/?https%3A%2F%2Fidp.example%2Fjwks";
           CallFetch "https://corsproxy.io/?https%3A%2F%2Fidp.example%2Fjwks"]
          (mkUI None false [])).
Proof. reflexivity. Qed.

(** C2 at work: 404 for the direct request, 502 for the proxy request. *)
Lemma fetchWithCorsProxyFallback_after_two_failures_witness :
  calls (snd (fetchWithCorsProxyFallback accepting "https://idp.example/jwks" false
                (initial [status "Not Found"; status "Bad Gateway";
                          status "Service Unavailable"])))
  = [CallFetch "https://idp.example/jwks";
     CallFetch "https://corsproxy.io/?https%3A%2F%2Fidp.example%2Fjwks";
     CallFetch "https://corsproxy.io/?https%3A%2F%2Fidp.example%2Fjwks"].
Proof.
  exact (fetchWithCorsProxyFallback_after_two_failures Script string accepting
           "https://idp.example/jwks"
           (initial [status "Not Found"; status "Bad Gateway";
                     status "Service Unavailable"])
           (mkResponse false "Not Found" (inl (ErrorObj "Unexpected end of JSON input")))
           [status "Bad Gateway"; status "Service Unavailable"]
           [status "Service Unavailable"]
           (status "Bad Gateway")
           eq_refl eq_refl eq_refl eq_refl).
Defined.

(** The decoder on a well-formed token whose payload segment holds [_]:
    the header decodes, the payload does not. *)
Lemma decodeJwt_refuses_base64url_payload :
  decodeJwt accepting "eyJhbGciOiJIUzI1NiIsInR5cCI6IkpXVCJ9.eyJzdWIiOiI_PyJ9.c2ln"
  = DecodeError "The string to be decoded is not correctly encoded.".
Proof. reflexivity. Qed.


Lemma keys_fetched_direct (token : string) (jwks : JSValue) :
  keys_fetched accepting (mkOpenId token "https://idp.example" false)
    (initial [ok_json discovery_document; ok_json jwks])
    jwks
    (mkSt []
          [CallFetch "https://idp.example/.well-known/openid-configuration";
           CallFetch "https://idp.example/jwks"]
          (mkUI None true [])).
Proof.
  exists (mkResponse true "OK" (inr discovery_document)),
    (mkSt [ok_json jwks]
          [CallFetch "https://idp.example/.well-known/openid-configuration"]
          (mkUI None true [])),
    discovery_document, (JString "https://idp.example/jwks"),
    (mkResponse true "OK" (inr jwks)).
  repeat split; reflexivity.
Defined.

Lemma keys_fetched_example :
  keys_fetched accepting openId_direct
    (initial [ok_json discovery_document; ok_json (jwk_set ["k0"; "k2"])])
    (jwk_set ["k0"; "k2"])
    (mkSt []
          [CallFetch "https://idp.example/.well-known/openid-configuration";
           CallFetch "https://idp.example/jwks"]
          (mkUI None true [])).
Proof. exact (keys_fetched_direct "eyJraWQiOiJrMSJ9.e30.c2ln" (jwk_set ["k0"; "k2"])). Defined.

Lemma no_entry_matches_example :
  no_entry_matches
    [JObject [("kty", JString "RSA"); ("kid", JString "k0")];
     JObject [("kty", JString "RSA"); ("kid", JString "k2")]]
    (JString "k1").
Proof.
  repeat constructor.
  - exists (JString "k0"). split; reflexivity.
  - exists (JString "k2"). split; reflexivity.
Defined.

Lemma no_entry_matches_before :
  no_entry_matches [JObject [("kty", JString "RSA"); ("kid", JString "k0")]]
    (JString "k1").
Proof.
  repeat constructor. exists (JString "k0"). split; reflexivity.
Defined.



(** C9 at work: no algorithm in the form, the header [{}]. *)
Lemma verifyWithAsymmetricKey_defaults_to_RS256_witness :
  calls (snd (verifyWithAsymmetricKey accepting asymmetric_plain (initial [])))
  = [CallImportSPKI "PEM" (JString "RS256");
     CallJwtVerify "e30.e30.c2ln" (PublicKey "PEM")
       (mkOptions (Some [JString "RS256"]) None)].
Proof.
  exact (verifyWithAsymmetricKey_defaults_to_RS256 Script string accepting
           asymmetric_plain (initial []) (JObject []) eq_refl eq_refl eq_refl).
Defined.

(** C10 at work: the direct request is answered 404, the proxy answers. *)
Lemma fetchWithCorsProxyFallback_returns_ok_witness :
  fetchWithCorsProxyFallback accepting "https://idp.example/jwks" false
    (initial [status "Not Found"; ok_json (jwk_set ["k1"])])
  = (inr (mkResponse true "OK" (inr (jwk_set ["k1"]))),
     mkSt []
          [CallFetch "https://idp.example/jwks";
           CallFetch "https://corsproxy.io/?https%3A%2F%2Fidp.example%2Fjwks"]
          (mkUI None false []))
  /\ ok (mkResponse true "OK" (inr (jwk_set ["k1"]))) = true.
Proof.
  split; [reflexivity|].
  apply (fetchWithCorsProxyFallback_returns_ok Script string accepting
           "https://idp.example/jwks" false
           (initial [status "Not Found"; ok_json (jwk_set ["k1"])])
           (mkSt []
              [CallFetch "https://idp.example/jwks";
               CallFetch "https://corsproxy.io/?https%3A%2F%2Fidp.example%2Fjwks"]
              (mkUI None false []))).
  reflexivity.
Defined.

(** * Further behaviour of the code *)

(** ** Splitting and joining *)

Lemma js_split_concat (sep : ascii) (s : string) :
  String.concat (String sep EmptyString) (js_split sep s) = s.
Proof.
  induction s as [|a s' IH]; simpl; [reflexivity|].
  destruct (Ascii.eqb_spec a sep) as [->|N].
  - pose proof (js_split_nonempty sep s') as ne.
    simpl. destruct (js_split sep s') as [|p ps]; [now destruct ne|].
    simpl in *. now rewrite IH.
  - pose proof (js_split_nonempty sep s') as ne.
    destruct (js_split sep s') as [|p ps]; [now destruct ne|].
    simpl in *. destruct ps; simpl in *; now rewrite <- IH.
Qed.

Lemma js_split_no_separator (sep : ascii) (s : string) :
  Forall (fun part => count_char sep part = 0) (js_split sep s).
Proof.
  induction s as [|a s' IH]; simpl; [repeat constructor|].
  destruct (Ascii.eqb a sep) eqn:E.
  - constructor; [reflexivity|exact IH].
  - destruct (js_split sep s') as [|p ps]; simpl.
    + repeat constructor. simpl. now rewrite E.
    + inversion IH as [|? ? Hp Hps]; subst. constructor; [|exact Hps].
      simpl. now rewrite E.
Qed.

Lemma trimStart_nil (l : list ascii) :
  trimStart l = [] <-> forallb is_js_whitespace l = true.
Proof.
  induction l as [|a l' IH]; simpl; [tauto|].
  destruct (is_js_whitespace a); simpl; [exact IH|].
  split; discriminate.
Qed.

Lemma of_chars_empty (l : list ascii) : is_empty (of_chars l) = true <-> l = [].
Proof. destruct l; simpl; split; (reflexivity || discriminate). Qed.

Lemma trim_blank (s : string) :
  is_empty (trim s) = true <-> forallb is_js_whitespace (chars s) = true.
Proof.
  unfold trim. rewrite of_chars_empty. split.
  - intros H. apply trimStart_nil.
    destruct (trimStart (chars s)) as [|a l] eqn:E; [reflexivity|].
    exfalso.
    assert (K : trimStart (rev (a :: l)) = []).
    { apply (f_equal (@rev ascii)) in H. rewrite rev_involutive in H. exact H. }
    apply trimStart_nil in K. rewrite forallb_forall in K.
    assert (W : is_js_whitespace a = true).
    { apply K, in_rev. rewrite rev_involutive. now left. }
    clear - E W. induction (chars s) as [|b t IH]; simpl in E; [discriminate|].
    destruct (is_js_whitespace b) eqn:B; [now apply IH|].
    injection E as -> _. congruence.
  - intros H. apply trimStart_nil in H. now rewrite H.
Qed.

Lemma js_split_no_sep (sep : ascii) (s : string) :
  count_char sep s = 0 -> js_split sep s = [s].
Proof.
  induction s as [|a s' IH]; simpl; [reflexivity|].
  destruct (Ascii.eqb a sep); [discriminate|].
  intros H. now rewrite (IH H).
Qed.

Lemma js_split_app (sep : ascii) (a b : string) :
  count_char sep a = 0 ->
  js_split sep (a ++ String sep b) = a :: js_split sep b.
Proof.
  induction a as [|c a' IH]; simpl.
  - intros _. now rewrite Ascii.eqb_refl.
  - destruct (Ascii.eqb c sep); [discriminate|].
    intros H. now rewrite (IH H).
Qed.

(** ** The decoder *)

Section Decoder.

Variables World KeyLike : Type.
Variable P : Platform World KeyLike.

(** X1: [decodeJwt] takes a token for not entered, and attempts no
    decoding, exactly when the token holds nothing but white space. *)
Theorem decodeJwt_nothing_entered_iff_blank (token : string) :
  decodeJwt P token = NothingEntered
  <-> forallb is_js_whitespace (chars token) = true.
Proof.
  rewrite <- trim_blank. unfold decodeJwt.
  destruct (is_empty (trim token)).
  - tauto.
  - split; [|discriminate].
    destruct (decodeJwt_try P token); discriminate.
Qed.

(** X2: [decodeJwt] decodes a token exactly when the token is not blank and
    is made of three parts without a dot, joined by two dots, of which the
    first and the second go through [atob] and [JSON.parse]; the third
    part is shown as the signature as it stands, empty or not, without
    being decoded or checked. *)
Theorem decodeJwt_decoded_iff (token : string) (d : DecodedJWT) :
  decodeJwt P token = Decoded d
  <-> is_empty (trim token) = false
      /\ exists h p,
          token = (h ++ "." ++ p ++ "." ++ dec_signature d)%string
          /\ count_char "." h = 0
          /\ count_char "." p = 0
          /\ count_char "." (dec_signature d) = 0
          /\ parse_segment P h = inr (dec_header d)
          /\ parse_segment P p = inr (dec_payload d).
Proof.
  unfold decodeJwt, decodeJwt_try, ebind. split.
  - destruct (is_empty (trim token)); [discriminate|].
    intros H. split; [reflexivity|].
    destruct (decodeJwt_parts token) as [e|parts] eqn:Ep; [discriminate|].
    apply decodeJwt_parts_inr in Ep. destruct Ep as [-> L].
    pose proof (js_split_concat "." token) as join.
    pose proof (js_split_no_separator "." token) as nodot.
    destruct (js_split "." token) as [|h [|p [|sig [|x rest]]]];
      simpl in L; try discriminate.
    simpl in H, join.
    destruct (parse_segment P h) as [e|header] eqn:Eh; [discriminate|].
    destruct (parse_segment P p) as [e|payload] eqn:Epl; [discriminate|].
    injection H as <-. simpl.
    inversion nodot as [|? ? N1 T1]; subst.
    inversion T1 as [|? ? N2 T2]; subst.
    inversion T2 as [|? ? N3 _]; subst.
    exists h, p. now repeat split.
  - intros (blank & h & p & -> & N1 & N2 & N3 & Eh & Epl).
    rewrite blank. unfold decodeJwt_parts.
    change (h ++ "." ++ p ++ "." ++ dec_signature d)%string
      with (h ++ String "." (p ++ String "." (dec_signature d)))%string.
    rewrite (js_split_app "." h _ N1), (js_split_app "." p _ N2),
      (js_split_no_sep "." _ N3).
    simpl. rewrite Eh, Epl. now destruct d.
Qed.

End Decoder.

(** ** The decoder and its parent *)

Section DecoderState.

Variables World KeyLike : Type.
Variable P : Platform World KeyLike.

Lemma decodeJwt_callback_invariant (st : Decoder * Tool) :
  decoder_invariant P st ->
  decoder_invariant P (decodeJwt_callback P (Some handleJwtChange) st).
Proof.
  unfold decoder_invariant, decodeJwt_callback, decodes_to.
  intros [Hc Hd].
  destruct (decodeJwt P (jwtToken (fst st))) as [|d|text] eqn:E; simpl.
  - now split.
  - split; [right; now exists d|].
    intros d' H. injection H as <-. exact E.
  - now split.
Qed.

Lemma autoDecode_invariant (st : Decoder * Tool) :
  decoder_invariant P st ->
  decoder_invariant P (autoDecode P (Some handleJwtChange) st).
Proof.
  unfold autoDecode. intros H.
  destruct (negb (is_empty (trim (jwtToken (fst st))))).
  - now apply decodeJwt_callback_invariant.
  - destruct H as [Hc _]. split; [exact Hc|]. simpl. discriminate.
Qed.

Lemma act_invariant (st : Decoder * Tool) (a : Action) :
  decoder_invariant P st ->
  decoder_invariant P (act P (Some handleJwtChange) st a).
Proof.
  intros H. destruct a as [value| | |]; simpl.
  - destruct (String.eqb value (jwtToken (fst st))); [exact H|].
    apply autoDecode_invariant. exact H.
  - now apply decodeJwt_callback_invariant.
  - destruct (is_empty (trim (jwtToken (fst st)))); [exact H|].
    apply autoDecode_invariant. split; [now left|]. simpl. discriminate.
  - now apply autoDecode_invariant.
Qed.

(** X3: whatever is typed and clicked in the decoder, the token that
    [JwtTool] hands to the verifier is empty or a token that [decodeJwt]
    decodes, and a decoding on show is the decoding of that token. *)
Theorem decoder_hands_over_decoded_tokens (actions : list Action) :
  decoder_invariant P (tool_actions P actions).
Proof.
  unfold tool_actions, run_actions.
  assert (start : decoder_invariant P mounted).
  { split; [now left|]. simpl. discriminate. }
  revert start. generalize mounted.
  induction actions as [|a rest IH]; simpl; intros st H; [exact H|].
  apply IH. now apply act_invariant.
Qed.

(** X4: a token that is typed and fails to decode leaves on show the
    decoding that was there, and leaves the parent as it was: the text box
    and the decoding then differ. *)
Theorem failed_decoding_keeps_previous
  (Parent : Type) (onJwtChange : option (string -> Parent -> Parent))
  (st : Decoder * Parent) (value text : string) :
  value <> jwtToken (fst st) ->
  decodeJwt P value = DecodeError text ->
  jwtToken (fst (act P onJwtChange st (Edit value))) = value
  /\ decodedJwt (fst (act P onJwtChange st (Edit value))) = decodedJwt (fst st)
  /\ snd (act P onJwtChange st (Edit value)) = snd st
  /\ decoder_notices (fst (act P onJwtChange st (Edit value)))
     = decoder_notices (fst st) ++ [ConsoleError "Error decoding JWT:"; ToastError text].
Proof.
  intros differs fails. simpl.
  destruct (String.eqb_spec value (jwtToken (fst st))) as [E|_];
    [now destruct differs|].
  unfold autoDecode, decodeJwt_callback. simpl.
  assert (blank : is_empty (trim value) = false).
  { unfold decodeJwt in fails. now destruct (is_empty (trim value)). }
  rewrite blank. simpl. rewrite fails. simpl. now repeat split.
Qed.

(** X5: emptying the text box by hand takes the decoding off the show and
    tells the parent nothing, so that [JwtTool] keeps the token it had;
    the Clear button, on a token that is not blank, does the same and
    hands the empty token to [JwtTool]. *)
Theorem emptying_by_hand_or_by_clear (st : Decoder * Tool) :
  is_empty (trim (jwtToken (fst st))) = false ->
  (fst (act P (Some handleJwtChange) st (Edit ""))
   = mkDecoder "" None (decoder_notices (fst st))
   /\ snd (act P (Some handleJwtChange) st (Edit "")) = snd st)
  /\ (fst (act P (Some handleJwtChange) st ClickClear)
      = mkDecoder "" None (decoder_notices (fst st))
      /\ snd (act P (Some handleJwtChange) st ClickClear)
         = mkTool (activeTab (snd st)) "").
Proof.
  intros blank. simpl. rewrite blank.
  destruct (jwtToken (fst st)) as [|c rest] eqn:E; [discriminate blank|].
  simpl. now repeat split.
Qed.

End DecoderState.

(** ** The paths of the fetch helper *)

Section FetchPaths.

Variables World KeyLike : Type.
Variable P : Platform World KeyLike.

Abbreviation State := (St World KeyLike).

Ltac run_fetches :=
  repeat match goal with
    | |- context [platform_fetch P ?u ?w] =>
        let E := fresh "E" in
        destruct (platform_fetch P u w) as [[?|?] ?] eqn:E; simpl
    | |- context [if ok ?r then _ else _] =>
        let E := fresh "E" in
        destruct (ok r) eqn:E; simpl
    | |- context [negb (ok ?r)] =>
        let E := fresh "E" in
        destruct (ok r) eqn:E; simpl
    end.

(** X6: one run of the helper makes one, two or three requests, the first
    to the address itself unless the proxy flag is set, every later one to
    the proxy address; it leaves the state of the component alone. *)
Theorem fetchWithCorsProxyFallback_requests
  (url : string) (useCorsProxy : bool) (s : State) :
  exists later,
    calls (snd (fetchWithCorsProxyFallback P url useCorsProxy s))
    = calls s ++ CallFetch (if useCorsProxy then proxyUrl url else url) :: later
    /\ Forall (fun c => c = CallFetch (proxyUrl url)) later
    /\ length later <= 2
    /\ ui (snd (fetchWithCorsProxyFallback P url useCorsProxy s)) = ui s.
Proof.
  unfold fetchWithCorsProxyFallback, try_catch, bind, fetch, ret, throw.
  destruct useCorsProxy; simpl; run_fetches;
    rewrite <- ?app_assoc; simpl;
    (eexists; split; [reflexivity|]);
    (split; [repeat (apply Forall_cons || apply Forall_nil); reflexivity|]);
    (split; [simpl; lia|reflexivity]).
Qed.

(** X7: with the proxy flag set the helper makes one request, to the proxy
    address, and none to the address itself; the response comes back when
    its status is a success, a transport error is thrown on as it is, and
    any other status becomes the error that names the address and the
    status text. *)
Theorem fetchWithCorsProxyFallback_proxy_only (url : string) (s : State) :
  fetchWithCorsProxyFallback P url true s
  = (match fst (platform_fetch P (proxyUrl url) (world s)) with
     | inl error => inl error
     | inr response =>
         if ok response then inr response
         else inl (ErrorObj ("Failed to fetch from " ++ url
                             ++ " (with CORS proxy): " ++ statusText response))
     end,
     mkSt (snd (platform_fetch P (proxyUrl url) (world s)))
          (calls s ++ [CallFetch (proxyUrl url)]) (ui s)).
Proof.
  unfold fetchWithCorsProxyFallback, try_catch, bind, fetch, ret, throw.
  simpl. run_fetches; reflexivity.
Qed.

(** X8: when the direct request comes back with a success status, the
    helper returns that response and the proxy is not asked. *)
Theorem fetchWithCorsProxyFallback_direct_success
  (url : string) (s : State) (response : Response) (w : World) :
  platform_fetch P url (world s) = (inr response, w) ->
  ok response = true ->
  fetchWithCorsProxyFallback P url false s
  = (inr response, mkSt w (calls s ++ [CallFetch url]) (ui s)).
Proof.
  intros H K.
  unfold fetchWithCorsProxyFallback, try_catch, bind, fetch, ret, throw.
  simpl. rewrite H. simpl. now rewrite K.
Qed.

(** X9: when the direct request throws, the helper asks the proxy once and
    its outcome is that of the proxy request alone: the response on a
    success status, the transport error of the proxy request, or the error
    that names the address and the status text.  The error of the direct
    request is dropped. *)
Theorem fetchWithCorsProxyFallback_transport_error
  (url : string) (s : State) (direct_error : Thrown) (w : World) :
  platform_fetch P url (world s) = (inl direct_error, w) ->
  fetchWithCorsProxyFallback P url false s
  = (match fst (platform_fetch P (proxyUrl url) w) with
     | inl error => inl error
     | inr response =>
         if ok response then inr response
         else inl (ErrorObj ("Failed to fetch from " ++ url
                             ++ " (with CORS proxy fallback): "
                             ++ statusText response))
     end,
     mkSt (snd (platform_fetch P (proxyUrl url) w))
          (calls s ++ [CallFetch url; CallFetch (proxyUrl url)]) (ui s)).
Proof.
  intros H.
  unfold fetchWithCorsProxyFallback, try_catch, bind, fetch, ret, throw.
  simpl. rewrite H. simpl. run_fetches; now rewrite <- app_assoc.
Qed.

(** X10: when the direct request comes back with a status that is no
    success and the proxy request with one that is, the helper returns the
    response of the proxy after these two requests. *)
Theorem fetchWithCorsProxyFallback_bad_status_then_proxy
  (url : string) (s : State) (direct proxied : Response) (w1 w2 : World) :
  platform_fetch P url (world s) = (inr direct, w1) ->
  ok direct = false ->
  platform_fetch P (proxyUrl url) w1 = (inr proxied, w2) ->
  ok proxied = true ->
  fetchWithCorsProxyFallback P url false s
  = (inr proxied,
     mkSt w2 (calls s ++ [CallFetch url; CallFetch (proxyUrl url)]) (ui s)).
Proof.
  intros H1 K1 H2 K2.
  unfold fetchWithCorsProxyFallback, try_catch, bind, fetch, ret, throw.
  simpl. rewrite H1. simpl. rewrite K1. simpl. rewrite H2. simpl.
  rewrite K2. simpl. now rewrite <- app_assoc.
Qed.

End FetchPaths.

(** ** What the handlers leave behind *)

Section Handlers.

Variables World KeyLike : Type.
Variable P : Platform World KeyLike.

Abbreviation State := (St World KeyLike).

#[local] Arguments fetchWithCorsProxyFallback : simpl never.
#[local] Arguments parse_segment : simpl never.
#[local] Arguments asymmetric_alg : simpl never.
#[local] Arguments select_key : simpl never.
#[local] Arguments to_string : simpl never.
#[local] Arguments proxyUrl : simpl never.
#[local] Arguments openIdConfigUrl : simpl never.
#[local] Arguments utf8_encode : simpl never.
#[local] Arguments get_prop : simpl never.
#[local] Arguments truthy : simpl never.

Lemma verifyWithAsymmetricKey_try_ui (values : AsymmetricKeyFormValues) (s : State) :
  try_block_ui "Token successfully verified with asymmetric key"
    "JWT verified successfully" (ui s) (verifyWithAsymmetricKey_try P values s).
Proof.
  unfold try_block_ui, verifyWithAsymmetricKey_try, bind, lift, importSPKI,
    jwtVerify, succeed, notify, setVerificationResult, update_ui.
  destruct (parse_segment P _) as [e|tokenHeader]; simpl; [reflexivity|].
  destruct (asymmetric_alg P _ tokenHeader) as [e|alg]; simpl; [reflexivity|].
  destruct (platform_importSPKI P _ _ _) as [[e|key] w]; simpl; [reflexivity|].
  destruct (platform_jwtVerify P _ _ _ _) as [[e|result] w']; simpl;
    [reflexivity|eauto].
Qed.

Lemma verifyWithSymmetricKey_try_ui (values : SymmetricKeyFormValues) (s : State) :
  try_block_ui "Token successfully verified with symmetric key"
    "JWT verified successfully" (ui s) (verifyWithSymmetricKey_try P values s).
Proof.
  unfold try_block_ui, verifyWithSymmetricKey_try, bind, jwtVerify, succeed,
    notify, setVerificationResult, update_ui.
  destruct (platform_jwtVerify P _ _ _ _) as [[e|result] w]; simpl;
    [reflexivity|eauto].
Qed.

Lemma verifyWithOpenId_try_ui (values : OpenIdFormValues) (s : State) :
  try_block_ui "Token successfully verified with OpenID provider"
    "JWT verified successfully with OpenID provider" (ui s)
    (verifyWithOpenId_try P values s).
Proof.
  unfold try_block_ui, verifyWithOpenId_try, bind, lift, throw.
  set (url := openIdConfigUrl (oidc_issuerUrl values)).
  set (flag := oidc_useCorsProxy values).
  destruct (fetchWithCorsProxyFallback_calls World KeyLike P url flag s)
    as (d & _ & U1 & _).
  destruct (fetchWithCorsProxyFallback P url flag s) as [[e|configResponse] s1];
    simpl in U1 |- *; [exact U1|].
  destruct (json configResponse) as [e|config]; simpl; [exact U1|].
  destruct (engine P (get_prop config "jwks_uri")) as [e|jwksUri]; simpl;
    [exact U1|].
  destruct (truthy jwksUri); simpl; [|exact U1].
  destruct (fetchWithCorsProxyFallback_calls World KeyLike P (to_string jwksUri) flag s1)
    as (j & _ & U2 & _).
  rewrite U1 in U2.
  destruct (fetchWithCorsProxyFallback P (to_string jwksUri) flag s1)
    as [[e|jwksResponse] s2]; simpl in U2 |- *; [exact U2|].
  destruct (json jwksResponse) as [e|jwks]; simpl; [exact U2|].
  destruct (select_key P (oidc_token values) jwks) as [e|matchingKey]; simpl;
    [exact U2|].
  destruct (platform_new_URL P _) as [e|href]; simpl; [exact U2|].
  destruct (engine P (get_prop config "issuer")) as [e|config_issuer]; simpl;
    [exact U2|].
  unfold jwtVerify, succeed, notify, setVerificationResult, update_ui, bind.
  simpl.
  destruct (platform_jwtVerify P _ _ _ _) as [[e|result] w]; simpl;
    [exact U2|rewrite U2; eauto].
Qed.

Lemma guarded_reports
  (label fallback text toast : string) (body : M World KeyLike unit) (s : State) :
  try_block_ui text toast (ui (started s)) (body (started s)) ->
  reports label fallback text toast (ui s) (ui (snd (guarded label fallback body s))).
Proof.
  rewrite guarded_run. unfold try_block_ui, reports, failure.
  destruct (body (started s)) as [[error|u] s1]; simpl.
  - intros ->. simpl. split; [reflexivity|]. right. exists error.
    now rewrite <- app_assoc.
  - intros [d ->]. simpl. split; [reflexivity|]. left. now exists d.
Qed.

(** X11: every handler ends with [isVerifying] false, and with one of two
    outcomes: the valid result with its fixed text, its details and one
    success toast; or a result that is not valid, one line on the console
    and the failure toast.  Nothing else is printed. *)
Theorem handlers_report_once
  (asymmetric : AsymmetricKeyFormValues) (symmetric : SymmetricKeyFormValues)
  (openId : OpenIdFormValues) (s : State) :
  reports "Verification error:" "Verification failed"
    "Token successfully verified with asymmetric key" "JWT verified successfully"
    (ui s) (ui (snd (verifyWithAsymmetricKey P asymmetric s)))
  /\ reports "Verification error:" "Verification failed"
       "Token successfully verified with symmetric key" "JWT verified successfully"
       (ui s) (ui (snd (verifyWithSymmetricKey P symmetric s)))
  /\ reports "OpenID verification error:" "OpenID verification failed"
       "Token successfully verified with OpenID provider"
       "JWT verified successfully with OpenID provider"
       (ui s) (ui (snd (verifyWithOpenId P openId s))).
Proof.
  rewrite verifyWithAsymmetricKey_guarded, verifyWithSymmetricKey_guarded,
    verifyWithOpenId_guarded.
  split; [|split]; apply guarded_reports.
  - exact (verifyWithAsymmetricKey_try_ui asymmetric (started s)).
  - exact (verifyWithSymmetricKey_try_ui symmetric (started s)).
  - exact (verifyWithOpenId_try_ui openId (started s)).
Qed.

(** X12: the symmetric handler does not look into the token: it makes the
    one call to [jose.jwtVerify], and the result it shows is the verdict of
    that call, valid with the payload and the header that jose returns, or
    not valid with the message of the error that jose throws. *)
Theorem verifyWithSymmetricKey_shows_jose_verdict
  (values : SymmetricKeyFormValues) (s : State) :
  shown (verifyWithSymmetricKey P values s)
  = Some (match fst (platform_jwtVerify P (sym_token values)
                       (SecretBytes (utf8_encode (sym_secretKey values)))
                       (mkOptions (Some [JString (hmac_name (sym_algorithm values))]) None)
                       (world s)) with
          | inr result =>
              mkResult true "Token successfully verified with symmetric key"
                (Some (mkDetails (jwt_payload result) (jwt_protectedHeader result)))
          | inl error => failure error "Verification failed"
          end).
Proof.
  rewrite verifyWithSymmetricKey_guarded, guarded_run.
  unfold verifyWithSymmetricKey_try, bind, jwtVerify, succeed, notify,
    setVerificationResult, update_ui, shown.
  simpl. now destruct (platform_jwtVerify P _ _ _ _) as [[e|result] w].
Qed.

(** X13: the asymmetric handler decodes the header of the token before
    anything else, also when the form names the algorithm: when the first
    part of the token does not go through [atob] and [JSON.parse], the
    handler shows that error and calls neither [jose.importSPKI] nor
    [jose.jwtVerify]. *)
Theorem verifyWithAsymmetricKey_header_must_decode
  (values : AsymmetricKeyFormValues) (s : State) (error : Thrown) :
  parse_segment P (hd "" (js_split "." (asym_token values))) = inl error ->
  shown (verifyWithAsymmetricKey P values s) = Some (failure error "Verification failed")
  /\ calls (snd (verifyWithAsymmetricKey P values s)) = calls s.
Proof.
  intros H. rewrite verifyWithAsymmetricKey_guarded, guarded_run.
  unfold verifyWithAsymmetricKey_try, bind, lift, shown.
  rewrite H. simpl. now split.
Qed.

(** X14: an algorithm chosen in the form wins over the token header: the
    key is imported and the token verified for that algorithm, whatever
    [alg] the header declares. *)
Theorem verifyWithAsymmetricKey_form_algorithm_wins
  (values : AsymmetricKeyFormValues) (s : State) (tokenHeader : JSValue)
  (algorithm : string) :
  asym_algorithm values = Some algorithm ->
  is_empty algorithm = false ->
  parse_segment P (hd "" (js_split "." (asym_token values))) = inr tokenHeader ->
  match platform_importSPKI P (asym_publicKey values) (JString algorithm) (world s) with
  | (inl _, _) =>
      calls (snd (verifyWithAsymmetricKey P values s))
      = calls s ++ [CallImportSPKI (asym_publicKey values) (JString algorithm)]
  | (inr key, _) =>
      calls (snd (verifyWithAsymmetricKey P values s))
      = calls s ++ [CallImportSPKI (asym_publicKey values) (JString algorithm);
                    CallJwtVerify (asym_token values) (PublicKey key)
                      (mkOptions (Some [JString algorithm]) None)]
  end.
Proof.
  intros Hform Hne Hparse.
  rewrite verifyWithAsymmetricKey_guarded, guarded_calls.
  unfold verifyWithAsymmetricKey_try, bind, lift, importSPKI, jwtVerify, succeed,
    notify, setVerificationResult, update_ui.
  rewrite Hparse. simpl.
  unfold asymmetric_alg. rewrite Hform. unfold optional_string, truthy.
  rewrite Hne. simpl.
  destruct (platform_importSPKI P _ _ _) as [[e|key] w]; simpl; [reflexivity|].
  destruct (platform_jwtVerify P _ _ _ _) as [[e|result] w']; simpl;
    now rewrite <- app_assoc.
Qed.

(** X15: a discovery document without a [jwks_uri] (or with a falsy one)
    ends the OpenID handler with the error that says so; the key set is not
    asked for and nothing is verified. *)
Theorem verifyWithOpenId_needs_jwks_uri
  (values : OpenIdFormValues) (s s1 : State) (configResponse : Response)
  (config jwksUri : JSValue) :
  fetchWithCorsProxyFallback P (openIdConfigUrl (oidc_issuerUrl values))
    (oidc_useCorsProxy values) (started s) = (inr configResponse, s1) ->
  json configResponse = inr config ->
  get_prop config "jwks_uri" = inr jwksUri ->
  truthy jwksUri = false ->
  shown (verifyWithOpenId P values s)
  = Some (mkResult false "JWKS URI not found in OpenID configuration" None)
  /\ calls (snd (verifyWithOpenId P values s)) = calls s1.
Proof.
  intros F1 J1 U T. rewrite verifyWithOpenId_guarded, guarded_run.
  unfold verifyWithOpenId_try, bind, lift, throw, engine, shown.
  rewrite F1. simpl. rewrite J1, U. simpl. rewrite T. simpl. now split.
Qed.

(** X16: the OpenID handler looks at the token only after the discovery
    document and the key set have come: a token whose first part does not
    go through [atob] and [JSON.parse] is refused with that error after
    both have been fetched, and nothing is verified. *)
Theorem verifyWithOpenId_reads_token_after_fetching
  (values : OpenIdFormValues) (s s2 : State) (jwks : JSValue) (error : Thrown) :
  keys_fetched P values s jwks s2 ->
  parse_segment P (hd "" (js_split "." (oidc_token values))) = inl error ->
  shown (verifyWithOpenId P values s)
  = Some (failure error "OpenID verification failed")
  /\ calls (snd (verifyWithOpenId P values s)) = calls s2.
Proof.
  intros fetched H.
  apply (verifyWithOpenId_key_refused World KeyLike P values s s2 jwks);
    [exact fetched|].
  unfold select_key, ebind. now rewrite H.
Qed.

(** X17: when a key of the key set matches, the token is not verified
    against that key: [jose.jwtVerify] is given the address of the key set,
    the proxy address of it when the proxy flag is set, with the issuer of
    the discovery document as the one option, and its verdict is the result
    on show. *)
Theorem verifyWithOpenId_verifies_against_remote_key_set
  (values : OpenIdFormValues) (s s1 s2 : State)
  (configResponse jwksResponse : Response)
  (config jwksUri jwks key config_issuer : JSValue) (href : string) :
  fetchWithCorsProxyFallback P (openIdConfigUrl (oidc_issuerUrl values))
    (oidc_useCorsProxy values) (started s) = (inr configResponse, s1) ->
  json configResponse = inr config ->
  get_prop config "jwks_uri" = inr jwksUri ->
  truthy jwksUri = true ->
  fetchWithCorsProxyFallback P (to_string jwksUri) (oidc_useCorsProxy values) s1
  = (inr jwksResponse, s2) ->
  json jwksResponse = inr jwks ->
  select_key P (oidc_token values) jwks = inr key ->
  platform_new_URL P (if oidc_useCorsProxy values then proxyUrl (to_string jwksUri)
                      else to_string jwksUri) = inr href ->
  get_prop config "issuer" = inr config_issuer ->
  calls (snd (verifyWithOpenId P values s))
  = calls s2 ++ [CallJwtVerify (oidc_token values) (RemoteJWKSet href)
                   (mkOptions None (Some config_issuer))]
  /\ shown (verifyWithOpenId P values s)
     = Some (match fst (platform_jwtVerify P (oidc_token values) (RemoteJWKSet href)
                          (mkOptions None (Some config_issuer)) (world s2)) with
             | inr result =>
                 mkResult true "Token successfully verified with OpenID provider"
                   (Some (mkDetails (jwt_payload result) (jwt_protectedHeader result)))
             | inl error => failure error "OpenID verification failed"
             end).
Proof.
  intros F1 J1 U T F2 J2 K N I.
  rewrite verifyWithOpenId_guarded, guarded_run.
  unfold verifyWithOpenId_try, bind, lift, throw, engine, shown.
  rewrite F1. simpl. rewrite J1, U. simpl. rewrite T. simpl.
  rewrite F2. simpl. rewrite J2. simpl. rewrite K. simpl. rewrite N. simpl.
  rewrite I. simpl.
  unfold jwtVerify, succeed, notify, setVerificationResult, update_ui, bind.
  simpl. now destruct (platform_jwtVerify P _ _ _ _) as [[e|result] w].
Qed.

End Handlers.

(** ** The address of the discovery document *)

Lemma append_assoc3 (a b c : string) : ((a ++ b) ++ c = a ++ (b ++ c))%string.
Proof. induction a as [|x a' IH]; simpl; [reflexivity|now rewrite IH]. Qed.

Lemma endsWith_append (s : string) (c : ascii) :
  endsWith (s ++ String c EmptyString) c = true.
Proof.
  induction s as [|a s' IH]; simpl; [apply Ascii.eqb_refl|].
  destruct (s' ++ String c EmptyString)%string eqn:E; [|exact IH].
  destruct s'; discriminate E.
Qed.

Lemma endsWith_split (s : string) (c : ascii) :
  endsWith s c = true -> exists base, s = (base ++ String c EmptyString)%string.
Proof.
  induction s as [|a s' IH]; simpl; [discriminate|].
  destruct s' as [|b s''].
  - intros H. apply Ascii.eqb_eq in H. subst. now exists EmptyString.
  - intros H. destruct (IH H) as [base ->]. now exists (String a base).
Qed.

(** X18: the discovery document is asked for at the issuer address
    followed by [/.well-known/openid-configuration], with one slash between
    the two whether the issuer address is typed with a slash at its end or
    without: the address for [u/] is the address for [u] when [u] does not
    end with a slash itself. *)
Theorem openIdConfigUrl_one_slash (issuerUrl : string) :
  openIdConfigUrl (issuerUrl ++ "/")
  = (issuerUrl ++ "/.well-known/openid-configuration")%string
  /\ (if endsWith issuerUrl "/"
      then exists base,
          issuerUrl = (base ++ "/")%string
          /\ openIdConfigUrl issuerUrl
             = (base ++ "/.well-known/openid-configuration")%string
      else openIdConfigUrl issuerUrl
           = (issuerUrl ++ "/.well-known/openid-configuration")%string).
Proof.
  unfold openIdConfigUrl. split.
  - rewrite (endsWith_append issuerUrl "/"). now rewrite append_assoc3.
  - destruct (endsWith issuerUrl "/") eqn:E; [|reflexivity].
    destruct (endsWith_split issuerUrl "/" E) as [base ->].
    exists base. split; [reflexivity|]. now rewrite append_assoc3.
Qed.

(** * Further runs on the scripted platform *)

(** X19 at work: a token of two parts. *)
Lemma decodeJwt_invalid_format_witness :
  decodeJwt accepting "e30.e30"
  = DecodeError "Invalid JWT format. Expected three parts separated by dots.".
Proof.
  apply (decodeJwt_invalid_format Script string accepting "e30.e30").
  - reflexivity.
  - vm_compute. discriminate.
Defined.

(** X4 at work: a decoded token on show, and two parts typed over it. *)
Lemma failed_decoding_keeps_previous_witness :
  decodedJwt (fst (act accepting (Some handleJwtChange)
                     (mkDecoder "e30.e30.c2ln"
                        (Some (mkDecoded (JObject []) (JObject []) "c2ln")) [],
                      mkTool "decode" "e30.e30.c2ln")
                     (Edit "e30.e30")))
  = Some (mkDecoded (JObject []) (JObject []) "c2ln").
Proof.
  apply (failed_decoding_keeps_previous Script string accepting Tool
           (Some handleJwtChange)
           (mkDecoder "e30.e30.c2ln"
              (Some (mkDecoded (JObject []) (JObject []) "c2ln")) [],
            mkTool "decode" "e30.e30.c2ln")
           "e30.e30" "Invalid JWT format. Expected three parts separated by dots.").
  - simpl. discriminate.
  - reflexivity.
Defined.

(** X5 at work: the same state, emptied by the Clear button. *)
Lemma emptying_by_hand_or_by_clear_witness :
  snd (act accepting (Some handleJwtChange)
         (mkDecoder "e30.e30.c2ln"
            (Some (mkDecoded (JObject []) (JObject []) "c2ln")) [],
          mkTool "decode" "e30.e30.c2ln")
         ClickClear)
  = mkTool "decode" "".
Proof.
  apply (emptying_by_hand_or_by_clear Script string accepting
           (mkDecoder "e30.e30.c2ln"
              (Some (mkDecoded (JObject []) (JObject []) "c2ln")) [],
            mkTool "decode" "e30.e30.c2ln")).
  reflexivity.
Defined.

(** X8 at work: the discovery document comes at once. *)
Lemma fetchWithCorsProxyFallback_direct_success_witness :
  fetchWithCorsProxyFallback accepting "https://idp.example/jwks" false
    (initial [ok_json (jwk_set ["k1"])])
  = (inr (mkResponse true "OK" (inr (jwk_set ["k1"]))),
     mkSt [] [CallFetch "https://idp.example/jwks"] (mkUI None false [])).
Proof.
  apply (fetchWithCorsProxyFallback_direct_success Script string accepting
           "https://idp.example/jwks" (initial [ok_json (jwk_set ["k1"])])
           (mkResponse true "OK" (inr (jwk_set ["k1"]))) []);
    reflexivity.
Defined.

(** X9 at work: the direct request throws, the proxy answers 502. *)
Lemma fetchWithCorsProxyFallback_transport_error_witness :
  fetchWithCorsProxyFallback accepting "https://idp.example/jwks" false
    (initial [inl (ErrorObj "Failed to fetch"); status "Bad Gateway"])
  = (inl (ErrorObj ("Failed to fetch from https://idp.example/jwks"
                    ++ " (with CORS proxy fallback): Bad Gateway")),
     mkSt []
          [CallFetch "https://idp.example/jwks";
           CallFetch "https://corsproxy.io/?https%3A%2F%2Fidp.example%2Fjwks"]
          (mkUI None false [])).
Proof.
  apply (fetchWithCorsProxyFallback_transport_error Script string accepting
           "https://idp.example/jwks"
           (initial [inl (ErrorObj "Failed to fetch"); status "Bad Gateway"])
           (ErrorObj "Failed to fetch") [status "Bad Gateway"]).
  reflexivity.
Defined.

(** X10 at work: 404 for the direct request, the key set from the proxy. *)
Lemma fetchWithCorsProxyFallback_bad_status_then_proxy_witness :
  fetchWithCorsProxyFallback accepting "https://idp.example/jwks" false
    (initial [status "Not Found"; ok_json (jwk_set ["k1"])])
  = (inr (mkResponse true "OK" (inr (jwk_set ["k1"]))),
     mkSt []
          [CallFetch "https://idp.example/jwks";
           CallFetch "https://corsproxy.io/?https%3A%2F%2Fidp.example%2Fjwks"]
          (mkUI None false [])).
Proof.
  apply (fetchWithCorsProxyFallback_bad_status_then_proxy Script string accepting
           "https://idp.example/jwks"
           (initial [status "Not Found"; ok_json (jwk_set ["k1"])])
           (mkResponse false "Not Found" (inl (ErrorObj "Unexpected end of JSON input")))
           (mkResponse true "OK" (inr (jwk_set ["k1"])))
           [ok_json (jwk_set ["k1"])] []);
    reflexivity.
Defined.

(** X13 at work: a header part with [-] in it, and [RS256] in the form. *)
Lemma verifyWithAsymmetricKey_header_must_decode_witness :
  shown (verifyWithAsymmetricKey accepting
           (mkAsymmetric "e-30.e30.c2ln" "PEM" (Some "RS256")) (initial []))
  = Some (mkResult false "The string to be decoded is not correctly encoded." None)
  /\ calls (snd (verifyWithAsymmetricKey accepting
                   (mkAsymmetric "e-30.e30.c2ln" "PEM" (Some "RS256")) (initial [])))
     = [].
Proof.
  exact (verifyWithAsymmetricKey_header_must_decode Script string accepting
           (mkAsymmetric "e-30.e30.c2ln" "PEM" (Some "RS256")) (initial [])
           (ErrorObj "The string to be decoded is not correctly encoded.")
           eq_refl).
Defined.

(** X14 at work: the header says [HS512], the form [ES256]. *)
Lemma verifyWithAsymmetricKey_form_algorithm_wins_witness :
  calls (snd (verifyWithAsymmetricKey accepting
                (mkAsymmetric "eyJhbGciOiJIUzUxMiJ9.e30.c2ln" "PEM" (Some "ES256"))
                (initial [])))
  = [CallImportSPKI "PEM" (JString "ES256");
     CallJwtVerify "eyJhbGciOiJIUzUxMiJ9.e30.c2ln" (PublicKey "PEM")
       (mkOptions (Some [JString "ES256"]) None)].
Proof.
  exact (verifyWithAsymmetricKey_form_algorithm_wins Script string accepting
           (mkAsymmetric "eyJhbGciOiJIUzUxMiJ9.e30.c2ln" "PEM" (Some "ES256"))
           (initial []) (JObject [("alg", JString "HS512")]) "ES256"
           eq_refl eq_refl eq_refl).
Defined.

(** X15 at work: a discovery document that names its issuer and no key
    set. *)
Lemma verifyWithOpenId_needs_jwks_uri_witness :
  shown (verifyWithOpenId accepting openId_direct
           (initial [ok_json (JObject [("issuer", JString "https://idp.example")])]))
  = Some (mkResult false "JWKS URI not found in OpenID configuration" None)
  /\ calls (snd (verifyWithOpenId accepting openId_direct
                   (initial [ok_json (JObject [("issuer",
                                                JString "https://idp.example")])])))
     = [CallFetch "https://idp.example/.well-known/openid-configuration"].
Proof.
  exact (verifyWithOpenId_needs_jwks_uri Script string accepting openId_direct
           (initial [ok_json (JObject [("issuer", JString "https://idp.example")])])
           (mkSt [] [CallFetch "https://idp.example/.well-known/openid-configuration"]
                 (mkUI None true []))
           (mkResponse true "OK"
              (inr (JObject [("issuer", JString "https://idp.example")])))
           (JObject [("issuer", JString "https://idp.example")])
           JUndefined
           eq_refl eq_refl eq_refl eq_refl).
Defined.

Lemma keys_fetched_for_any_token (token : string) :
  keys_fetched accepting (mkOpenId token "https://idp.example" false)
    (initial [ok_json discovery_document; ok_json (jwk_set ["k1"])])
    (jwk_set ["k1"])
    (mkSt []
          [CallFetch "https://idp.example/.well-known/openid-configuration";
           CallFetch "https://idp.example/jwks"]
          (mkUI None true [])).
Proof.
  exists (mkResponse true "OK" (inr discovery_document)),
    (mkSt [ok_json (jwk_set ["k1"])]
          [CallFetch "https://idp.example/.well-known/openid-configuration"]
          (mkUI None true [])),
    discovery_document, (JString "https://idp.example/jwks"),
    (mkResponse true "OK" (inr (jwk_set ["k1"]))).
  repeat split; reflexivity.
Defined.

(** X16 at work: a token whose header part has [-] in it; both documents
    are fetched before the token is refused. *)
Lemma verifyWithOpenId_reads_token_after_fetching_witness :
  shown (verifyWithOpenId accepting
           (mkOpenId "e-30.e30.c2ln" "https://idp.example" false)
           (initial [ok_json discovery_document; ok_json (jwk_set ["k1"])]))
  = Some (mkResult false "The string to be decoded is not correctly encoded." None)
  /\ calls (snd (verifyWithOpenId accepting
                   (mkOpenId "e-30.e30.c2ln" "https://idp.example" false)
                   (initial [ok_json discovery_document; ok_json (jwk_set ["k1"])])))
     = [CallFetch "https://idp.example/.well-known/openid-configuration";
        CallFetch "https://idp.example/jwks"].
Proof.
  exact (verifyWithOpenId_reads_token_after_fetching Script string accepting
           (mkOpenId "e-30.e30.c2ln" "https://idp.example" false)
           (initial [ok_json discovery_document; ok_json (jwk_set ["k1"])])
           _ _
           (ErrorObj "The string to be decoded is not correctly encoded.")
           (keys_fetched_for_any_token "e-30.e30.c2ln") eq_refl).
Defined.

(** X17 at work: the key [k1] of the token is in the key set, and the proxy
    flag is set. *)
Lemma verifyWithOpenId_verifies_against_remote_key_set_witness :
  calls (snd (verifyWithOpenId rejecting openId_proxied
                (initial [ok_json discovery_document; ok_json (jwk_set ["k0"; "k1"])])))
  = [CallFetch ("https://corsproxy.io/?https%3A%2F%2Fidp.example%2F"
                ++ ".well-known%2Fopenid-configuration");
     CallFetch "https://corsproxy.io/?https%3A%2F%2Fidp.example%2Fjwks";
     CallJwtVerify "eyJraWQiOiJrMSJ9.e30.c2ln"
       (RemoteJWKSet "https://corsproxy.io/?https%3A%2F%2Fidp.example%2Fjwks")
       (mkOptions None (Some (JString "https://idp.example")))]
  /\ shown (verifyWithOpenId rejecting openId_proxied
              (initial [ok_json discovery_document; ok_json (jwk_set ["k0"; "k1"])]))
     = Some (mkResult false "signature verification failed" None).
Proof.
  exact (verifyWithOpenId_verifies_against_remote_key_set Script string rejecting
           openId_proxied
           (initial [ok_json discovery_document; ok_json (jwk_set ["k0"; "k1"])])
           (mkSt [ok_json (jwk_set ["k0"; "k1"])]
                 [CallFetch ("https://corsproxy.io/?https%3A%2F%2Fidp.example%2F"
                             ++ ".well-known%2Fopenid-configuration")]
                 (mkUI None true []))
           (mkSt []
                 [CallFetch ("https://corsproxy.io/?https%3A%2F%2Fidp.example%2F"
                             ++ ".well-known%2Fopenid-configuration");
                  CallFetch "https://corsproxy.io/?https%3A%2F%2Fidp.example%2Fjwks"]
                 (mkUI None true []))
           (mkResponse true "OK" (inr discovery_document))
           (mkResponse true "OK" (inr (jwk_set ["k0"; "k1"])))
           discovery_document (JString "https://idp.example/jwks")
           (jwk_set ["k0"; "k1"])
           (JObject [("kty", JString "RSA"); ("kid", JString "k1")])
           (JString "https://idp.example")
           "https://corsproxy.io/?https%3A%2F%2Fidp.example%2Fjwks"
           eq_refl eq_refl eq_refl eq_refl eq_refl eq_refl eq_refl eq_refl eq_refl).
Defined.

(** ** Two more edges *)

(** X20: a key set that is an object without [keys] makes the OpenID
    handler fail, for a token with a [kid], with the fault of reading
    [find] on [undefined]; nothing is verified. *)
Theorem verifyWithOpenId_key_set_without_keys
  (World KeyLike : Type) (P : Platform World KeyLike)
  (values : OpenIdFormValues) (s s2 : St World KeyLike)
  (props : list (string * JSValue)) (tokenHeader kid : JSValue) :
  keys_fetched P values s (JObject props) s2 ->
  lookup "keys" props = None ->
  parse_segment P (hd "" (js_split "." (oidc_token values))) = inr tokenHeader ->
  get_prop tokenHeader "kid" = inr kid ->
  truthy kid = true ->
  shown (verifyWithOpenId P values s)
  = Some (mkResult false (engine_message P (ReadOfNullish "find")) None)
  /\ calls (snd (verifyWithOpenId P values s)) = calls s2.
Proof.
  intros fetched none Hp Hk T.
  apply (verifyWithOpenId_key_refused World KeyLike P values s s2 (JObject props)
           (fault P (ReadOfNullish "find")));
    [exact fetched|].
  unfold select_key, ebind, engine, jwks_keys_find.
  now rewrite Hp, Hk, T, none.
Qed.

Lemma autoDecode_again
  (World KeyLike : Type) (P : Platform World KeyLike)
  (value tab : string) (d : DecodedJWT) (printed : list Notice) :
  decodes_to P value d ->
  autoDecode P (Some handleJwtChange) (mkDecoder value (Some d) printed, mkTool tab value)
  = (mkDecoder value (Some d) (printed ++ [ToastSuccess "JWT decoded successfully"]),
     mkTool tab value).
Proof.
  unfold decodes_to. intros decodes.
  unfold autoDecode, decodeJwt_callback. simpl.
  assert (blank : is_empty (trim value) = false).
  { unfold decodeJwt in decodes. now destruct (is_empty (trim value)). }
  rewrite blank. simpl. now rewrite decodes.
Qed.

Lemma autoDecode_repeated
  (World KeyLike : Type) (P : Platform World KeyLike)
  (value tab : string) (d : DecodedJWT) (n : nat) (printed : list Notice) :
  decodes_to P value d ->
  run_actions P (Some handleJwtChange) (repeat RunEffect n)
    (mkDecoder value (Some d) printed, mkTool tab value)
  = (mkDecoder value (Some d)
       (printed ++ repeat (ToastSuccess "JWT decoded successfully") n),
     mkTool tab value).
Proof.
  intros decodes. unfold run_actions. revert printed.
  induction n as [|n IH]; intros printed; cbn [repeat fold_left act].
  - now rewrite app_nil_r.
  - rewrite (autoDecode_again World KeyLike P value tab d printed decodes).
    rewrite IH. now rewrite <- app_assoc.
Qed.

(** X21: a token that decodes is decoded as soon as it is typed, without a
    click: after the edit and [n] more runs of the effect (the component
    makes one more when the token of [JwtTool] changes, since
    [handleJwtChange] is then a new function) the decoding is on show and
    the token is in [JwtTool], and one success toast has been printed for
    the edit and one for each further run. *)
Theorem typed_token_is_decoded_at_once
  (World KeyLike : Type) (P : Platform World KeyLike)
  (st : Decoder * Tool) (value : string) (d : DecodedJWT) (n : nat) :
  value <> jwtToken (fst st) ->
  decodes_to P value d ->
  run_actions P (Some handleJwtChange) (Edit value :: repeat RunEffect n) st
  = (mkDecoder value (Some d)
       (decoder_notices (fst st)
          ++ repeat (ToastSuccess "JWT decoded successfully") (S n)),
     mkTool (activeTab (snd st)) value).
Proof.
  intros differs decodes. unfold run_actions. cbn [fold_left act].
  destruct (String.eqb_spec value (jwtToken (fst st))) as [E|_];
    [now destruct differs|].
  assert (first : autoDecode P (Some handleJwtChange) (setJwtToken value st)
                  = (mkDecoder value (Some d)
                       (decoder_notices (fst st)
                          ++ [ToastSuccess "JWT decoded successfully"]),
                     mkTool (activeTab (snd st)) value)).
  { unfold autoDecode, decodeJwt_callback. simpl.
    assert (blank : is_empty (trim value) = false).
    { unfold decodes_to, decodeJwt in decodes.
      now destruct (is_empty (trim value)). }
    rewrite blank. simpl. unfold decodes_to in decodes. now rewrite decodes. }
  rewrite first.
  pose proof (autoDecode_repeated World KeyLike P value (activeTab (snd st)) d n
                (decoder_notices (fst st) ++ [ToastSuccess "JWT decoded successfully"])
                decodes) as again.
  unfold run_actions in again. rewrite again. now rewrite <- app_assoc.
Qed.

Lemma keys_fetched_without_keys :
  keys_fetched accepting openId_direct
    (initial [ok_json discovery_document; ok_json (JObject [])])
    (JObject [])
    (mkSt []
          [CallFetch "https://idp.example/.well-known/openid-configuration";
           CallFetch "https://idp.example/jwks"]
          (mkUI None true [])).
Proof.
  exists (mkResponse true "OK" (inr discovery_document)),
    (mkSt [ok_json (JObject [])]
          [CallFetch "https://idp.example/.well-known/openid-configuration"]
          (mkUI None true [])),
    discovery_document, (JString "https://idp.example/jwks"),
    (mkResponse true "OK" (inr (JObject []))).
  repeat split; reflexivity.
Defined.

(** X20 at work: the key set is the empty object. *)
Lemma verifyWithOpenId_key_set_without_keys_witness :
  shown (verifyWithOpenId accepting openId_direct
           (initial [ok_json discovery_document; ok_json (JObject [])]))
  = Some (mkResult false "Cannot read properties of null (reading 'find')" None)
  /\ calls (snd (verifyWithOpenId accepting openId_direct
                   (initial [ok_json discovery_document; ok_json (JObject [])])))
     = [CallFetch "https://idp.example/.well-known/openid-configuration";
        CallFetch "https://idp.example/jwks"].
Proof.
  exact (verifyWithOpenId_key_set_without_keys Script string accepting openId_direct
           _ _ [] (JObject [("kid", JString "k1")]) (JString "k1")
           keys_fetched_without_keys eq_refl eq_refl eq_refl eq_refl).
Defined.

(** X21 at work: the token [e30.e30.c2ln] typed into the empty decoder,
    and the second run of the effect that the change of the token of
    [JwtTool] brings. *)
Lemma typed_token_is_decoded_at_once_witness :
  tool_actions accepting [Edit "e30.e30.c2ln"; RunEffect]
  = (mkDecoder "e30.e30.c2ln" (Some (mkDecoded (JObject []) (JObject []) "c2ln"))
       [ToastSuccess "JWT decoded successfully";
        ToastSuccess "JWT decoded successfully"],
     mkTool "decode" "e30.e30.c2ln").
Proof.
  apply (typed_token_is_decoded_at_once Script string accepting mounted
           "e30.e30.c2ln" (mkDecoded (JObject []) (JObject []) "c2ln") 1).
  - simpl. discriminate.
  - reflexivity.
Defined.
